(** * The RestoreItemAction gRPC bridge of velero (pkg/plugin/restore_item_action.go)

    A shallow embedding of the caller-side stub [RestoreItemActionGRPCClient]
    and of the callee-side dispatcher [RestoreItemActionGRPCServer], with the
    properties their specification states about dispatch, serialization and
    fault isolation.

    Go functions that touch the outside of the bridge (the registered plugin
    implementations, the gRPC channel) are state transformers over a world
    [W]; a Go panic is a second kind of outcome next to a normal return. *)

From Stdlib Require Import ZArith Ascii String List.
From stdpp Require Import base option strings pretty gmap.

Local Open Scope string_scope.

(** ** Values shared by both sides *)

(** []byte *)
Definition Bytes : Type := list Byte.byte.

(** What [recover()] hands to the deferred function after a fault: a Go
    runtime error (nil dereference, index out of range, ...) or the value of
    an explicit [panic(v)] in a plugin. *)
Inductive PanicValue : Type :=
| runtime_Error (msg : string)
| panic_value (v : string).

Definition PanicValue_message (p : PanicValue) : string :=
  match p with
  | runtime_Error msg => "runtime error: " ++ msg
  | panic_value v => v
  end.

(** The runtime error of calling through a nil pointer. *)
Definition nil_dereference : PanicValue :=
  runtime_Error "invalid memory address or nil pointer dereference".

(** Go's [error] values, by the place that creates them. *)
Inductive error : Type :=
| SerializationError (msg : string)      (* encoding/json: Marshal, Unmarshal *)
| UnknownPluginError (name : string)     (* serverMux.getHandler *)
| NotARestoreItemAction (T : string)     (* errors.Errorf("%T is not a restore item action", impl) *)
| RecoveredFaultError (p : PanicValue)   (* handlePanic *)
| TransportError (msg : string)          (* the gRPC channel *)
| RemoteOperationError (msg : string)    (* returned by a plugin implementation *)
| errors_New (msg : string).             (* errors.New *)

(** The [Error()] method. *)
Definition Error (e : error) : string :=
  match e with
  | SerializationError msg => msg
  | UnknownPluginError name => "unknown plugin: " ++ name
  | NotARestoreItemAction T => T ++ " is not a restore item action"
  | RecoveredFaultError p => "plugin panicked: " ++ PanicValue_message p
  | TransportError msg => msg
  | RemoteOperationError msg => msg
  | errors_New msg => msg
  end.

Set Warnings "-register-all".

(** The values a [map[string]interface{}] document tree can hold.  [Chan]
    stands for the Go values encoding/json has no encoding for (channels,
    functions). *)
Inductive value : Type :=
| Null
| Bool (b : bool)
| Number (n : Z)
| Str (s : string)
| Array (l : list value)
| Map (m : list (string * value))
| Chan.

Module unstructured.
(** k8s.io/apimachinery unstructured.Unstructured *)
Record Unstructured : Type := mk { Object : list (string * value) }.
Definition UnstructuredContent (u : Unstructured) : list (string * value) :=
  Object u.
End unstructured.

Module api.
(** Modelled from the spec: api.Restore is declared in pkg/apis/velero/v1,
    which is not among the sources; it is the restore-job descriptor, one
    opaque metadata document. *)
Record Restore : Type := mk { Descriptor : list (string * value) }.
End api.

(** ** Outcomes of Go calls *)

Inductive outcome (A : Type) : Type :=
| Normal (a : A)
| Panics (p : PanicValue).
Arguments Normal {A} a.
Arguments Panics {A} p.

(** A Go call that can change the world and can panic. *)
Definition M (W A : Type) : Type := W -> outcome A * W.

#[global] Instance M_ret {W} : MRet (M W) := fun A a w => (Normal a, w).

#[global] Instance M_bind {W} : MBind (M W) := fun A B k m w =>
  match m w with
  | (Normal a, w') => k a w'
  | (Panics p, w') => (Panics p, w')
  end.

Definition panic {W A} (p : PanicValue) : M W A := fun w => (Panics p, w).

(** ** package velero *)

Module velero.
Module ResourceSelector.
Record t : Type := mk {
  IncludedNamespaces : list string;
  ExcludedNamespaces : list string;
  IncludedResources : list string;
  ExcludedResources : list string;
  LabelSelector : string }.
(** [velero.ResourceSelector{}] *)
Definition zero : t := mk [] [] [] [] EmptyString.
End ResourceSelector.

(** [Item] and [ItemFromBackup] are [runtime.Unstructured] objects and
    [Restore] is the descriptor; callers always set the three. *)
Module RestoreItemActionExecuteInput.
Record t : Type := mk {
  Item : unstructured.Unstructured;
  ItemFromBackup : unstructured.Unstructured;
  Restore : api.Restore }.
End RestoreItemActionExecuteInput.

(** [UpdatedItem] is an interface value and can be nil; [Warning] is an
    [error] and nil when there is none. *)
Module RestoreItemActionExecuteOutput.
Record t : Type := mk {
  UpdatedItem : option unstructured.Unstructured;
  Warning : option error }.
End RestoreItemActionExecuteOutput.

(** The interface [velero.RestoreItemAction]: what a plugin implements.
    [Execute] returns a pointer and an error, either of which can be nil. *)
Record RestoreItemAction (W : Type) : Type := mkRestoreItemAction {
  AppliesTo : M W (ResourceSelector.t * option error);
  Execute : RestoreItemActionExecuteInput.t ->
            M W (option RestoreItemActionExecuteOutput.t * option error) }.
Arguments mkRestoreItemAction {W} _ _.
Arguments AppliesTo {W} _.
Arguments Execute {W} _ _.
End velero.

(** ** package proto: the generated wire messages and client *)

Module proto.
Module AppliesToRequest.
Record t : Type := mk { Plugin : string }.
End AppliesToRequest.

Module AppliesToResponse.
Record t : Type := mk {
  IncludedNamespaces : list string;
  ExcludedNamespaces : list string;
  IncludedResources : list string;
  ExcludedResources : list string;
  Selector : string }.
End AppliesToResponse.

Module RestoreExecuteRequest.
Record t : Type := mk {
  Plugin : string;
  Item : Bytes;
  ItemFromBackup : Bytes;
  Restore : Bytes }.
End RestoreExecuteRequest.

Module RestoreExecuteResponse.
Record t : Type := mk {
  Item : Bytes;
  Warning : string }.
End RestoreExecuteResponse.

(** [proto.RestoreItemActionClient]: a call blocks until the remote side
    replied or the transport failed, and returns a response or an error. *)
Record RestoreItemActionClient (W : Type) : Type := mkRestoreItemActionClient {
  AppliesTo : AppliesToRequest.t -> W -> (AppliesToResponse.t + error) * W;
  Execute : RestoreExecuteRequest.t -> W -> (RestoreExecuteResponse.t + error) * W }.
Arguments mkRestoreItemActionClient {W} _ _.
Arguments AppliesTo {W} _ _ _.
Arguments Execute {W} _ _ _.
End proto.

(** ** encoding/json *)

(** [json.Marshal] and [json.Unmarshal] for one Go type.  The serializer is
    an external collaborator: the bridge is stated over any instance. *)
Class Marshaler (T : Type) : Type := marshal : T -> Bytes + string.
Class Unmarshaler (T : Type) : Type := unmarshal : Bytes -> T + string.

Definition json_Marshal {T} `{Marshaler T} (v : T) : Bytes + error :=
  match marshal v with
  | inl b => inl b
  | inr msg => inr (SerializationError msg)
  end.

Definition json_Unmarshal {T} `{Unmarshaler T} (data : Bytes) : T + error :=
  match unmarshal data with
  | inl v => inl v
  | inr msg => inr (SerializationError msg)
  end.

(** A value the serializer can encode, bytes it can decode into a [T], and a
    value that survives the trip through its encoding. *)
Definition encodable {T} `{Marshaler T} (v : T) : Prop :=
  exists data, marshal v = inl data.

Definition decodable (T : Type) `{Unmarshaler T} (data : Bytes) : Prop :=
  exists v : T, unmarshal data = inl v.

Definition round_trips {A B} `{Marshaler A, Unmarshaler B} (a : A) (b : B) : Prop :=
  exists data, marshal a = inl data /\ unmarshal data = inl b.

(** ** The plugin server's registry *)

(** An object registered under a plugin name is an [interface{}]: it has the
    RestoreItemAction method set, or it is of some other dynamic type [T]. *)
Inductive Handler (W : Type) : Type :=
| ARestoreItemAction (impl : velero.RestoreItemAction W)
| AnotherType (T : string).
Arguments ARestoreItemAction {W} impl.
Arguments AnotherType {W} T.

Record serverMux (W : Type) : Type := mkServerMux {
  handlers : gmap string (Handler W) }.
Arguments mkServerMux {W} _.
Arguments handlers {W} _.

(** Modelled from the spec: serverMux.getHandler is not among the sources.
    It looks the plugin name up in the Registry; a name that is not found
    fails with UnknownPluginError, naming the requested plugin. *)
Definition getHandler {W} (m : serverMux W) (name : string) : Handler W + error :=
  match handlers m !! name with
  | Some h => inl h
  | None => inr (UnknownPluginError name)
  end.

(** Modelled from the spec: handlePanic is not among the sources.  It gets
    what [recover()] returned: nil when nothing panicked, and then it returns
    nil; otherwise it converts the fault into a normal error value carrying
    the diagnostic information. *)
Definition handlePanic (p : option PanicValue) : option error :=
  match p with
  | None => None
  | Some v => Some (RecoveredFaultError v)
  end.

(** ** The bridge *)

Section Bridge.
Context {W : Type}.
Context `{!Marshaler (list (string * value)), !Marshaler api.Restore,
          !Marshaler (option unstructured.Unstructured),
          !Unmarshaler unstructured.Unstructured, !Unmarshaler api.Restore}.

(** *** client code *)

(** [plugin] is the field of the embedded clientBase. *)
Record RestoreItemActionGRPCClient : Type := mkRestoreItemActionGRPCClient {
  plugin : string;
  grpcClient : proto.RestoreItemActionClient W }.

Definition RestoreItemActionGRPCClient_AppliesTo (c : RestoreItemActionGRPCClient)
  : W -> (velero.ResourceSelector.t * option error) * W := fun w =>
  match proto.AppliesTo (grpcClient c) {| proto.AppliesToRequest.Plugin := plugin c |} w with
  | (inr err, w') => ((velero.ResourceSelector.zero, Some err), w')
  | (inl res, w') =>
      (({| velero.ResourceSelector.IncludedNamespaces := proto.AppliesToResponse.IncludedNamespaces res;
           velero.ResourceSelector.ExcludedNamespaces := proto.AppliesToResponse.ExcludedNamespaces res;
           velero.ResourceSelector.IncludedResources := proto.AppliesToResponse.IncludedResources res;
           velero.ResourceSelector.ExcludedResources := proto.AppliesToResponse.ExcludedResources res;
           velero.ResourceSelector.LabelSelector := proto.AppliesToResponse.Selector res |},
        None), w')
  end.

Definition RestoreItemActionGRPCClient_Execute (c : RestoreItemActionGRPCClient)
    (input : velero.RestoreItemActionExecuteInput.t)
  : W -> (option velero.RestoreItemActionExecuteOutput.t * option error) * W := fun w =>
  match json_Marshal (unstructured.UnstructuredContent
                        (velero.RestoreItemActionExecuteInput.Item input)) with
  | inr err => ((None, Some err), w)
  | inl itemJSON =>
  match json_Marshal (unstructured.UnstructuredContent
                        (velero.RestoreItemActionExecuteInput.ItemFromBackup input)) with
  | inr err => ((None, Some err), w)
  | inl itemFromBackupJSON =>
  match json_Marshal (velero.RestoreItemActionExecuteInput.Restore input) with
  | inr err => ((None, Some err), w)
  | inl restoreJSON =>
  let req := {| proto.RestoreExecuteRequest.Plugin := plugin c;
                proto.RestoreExecuteRequest.Item := itemJSON;
                proto.RestoreExecuteRequest.ItemFromBackup := itemFromBackupJSON;
                proto.RestoreExecuteRequest.Restore := restoreJSON |} in
  match proto.Execute (grpcClient c) req w with
  | (inr err, w') => ((None, Some err), w')
  | (inl res, w') =>
  match json_Unmarshal (proto.RestoreExecuteResponse.Item res) with
  | inr err => ((None, Some err), w')
  | inl updatedItem =>
  let warning :=
    if decide (proto.RestoreExecuteResponse.Warning res = EmptyString) then None
    else Some (errors_New (proto.RestoreExecuteResponse.Warning res)) in
  ((Some {| velero.RestoreItemActionExecuteOutput.UpdatedItem := Some updatedItem;
            velero.RestoreItemActionExecuteOutput.Warning := warning |},
    None), w')
  end end end end end.

(** *** server code *)

Record RestoreItemActionGRPCServer : Type := mkRestoreItemActionGRPCServer {
  mux : serverMux W }.

Definition getImpl (s : RestoreItemActionGRPCServer) (name : string)
  : velero.RestoreItemAction W + error :=
  match getHandler (mux s) name with
  | inr err => inr err
  | inl impl =>
      match impl with
      | ARestoreItemAction itemAction => inl itemAction
      | AnotherType T => inr (NotARestoreItemAction T)
      end
  end.

(** The deferred function of both handlers:
    [if recoveredErr := handlePanic(recover()); recoveredErr != nil { err = recoveredErr }].
    It runs when the body returned, where [recover()] is nil, and when the
    body panicked.  In the second case the named results are what the body
    had assigned so far: [response] is only set by a return statement, and
    [err] is nil wherever the body can panic, since every assignment to it
    is followed by a return unless it is nil. *)
Definition withRecover {R} (body : M W (option R * option error))
  : M W (option R * option error) := fun w =>
  match body w with
  | (Normal (response, err), w') =>
      match handlePanic None with
      | Some recoveredErr => (Normal (response, Some recoveredErr), w')
      | None => (Normal (response, err), w')
      end
  | (Panics p, w') =>
      match handlePanic (Some p) with
      | Some recoveredErr => (Normal (None, Some recoveredErr), w')
      | None => (Normal (None, None), w')
      end
  end.

Definition RestoreItemActionGRPCServer_AppliesTo (s : RestoreItemActionGRPCServer)
    (req : proto.AppliesToRequest.t)
  : M W (option proto.AppliesToResponse.t * option error) :=
  withRecover (
    match getImpl s (proto.AppliesToRequest.Plugin req) with
    | inr err => mret (None, Some err)
    | inl impl =>
        '(appliesTo, err) ← velero.AppliesTo impl;
        match err with
        | Some e => mret (None, Some e)
        | None =>
            mret (Some {| proto.AppliesToResponse.IncludedNamespaces := velero.ResourceSelector.IncludedNamespaces appliesTo;
                          proto.AppliesToResponse.ExcludedNamespaces := velero.ResourceSelector.ExcludedNamespaces appliesTo;
                          proto.AppliesToResponse.IncludedResources := velero.ResourceSelector.IncludedResources appliesTo;
                          proto.AppliesToResponse.ExcludedResources := velero.ResourceSelector.ExcludedResources appliesTo;
                          proto.AppliesToResponse.Selector := velero.ResourceSelector.LabelSelector appliesTo |},
                  None)
        end
    end).

(** [executeOutput.UpdatedItem] reads through the pointer the
    implementation returned, and panics when that pointer is nil. *)
Definition RestoreItemActionGRPCServer_Execute (s : RestoreItemActionGRPCServer)
    (req : proto.RestoreExecuteRequest.t)
  : M W (option proto.RestoreExecuteResponse.t * option error) :=
  withRecover (
    match getImpl s (proto.RestoreExecuteRequest.Plugin req) with
    | inr err => mret (None, Some err)
    | inl impl =>
    match json_Unmarshal (proto.RestoreExecuteRequest.Item req) with
    | inr err => mret (None, Some err)
    | inl item =>
    match json_Unmarshal (proto.RestoreExecuteRequest.ItemFromBackup req) with
    | inr err => mret (None, Some err)
    | inl itemFromBackup =>
    match json_Unmarshal (proto.RestoreExecuteRequest.Restore req) with
    | inr err => mret (None, Some err)
    | inl restoreObj =>
        '(executeOutput, err) ← velero.Execute impl
            {| velero.RestoreItemActionExecuteInput.Item := item;
               velero.RestoreItemActionExecuteInput.ItemFromBackup := itemFromBackup;
               velero.RestoreItemActionExecuteInput.Restore := restoreObj |};
        match err with
        | Some e => mret (None, Some e)
        | None =>
        match executeOutput with
        | None => panic nil_dereference
        | Some executeOutput =>
        match json_Marshal (velero.RestoreItemActionExecuteOutput.UpdatedItem executeOutput) with
        | inr err => mret (None, Some err)
        | inl updatedItem =>
            let warnMessage :=
              match velero.RestoreItemActionExecuteOutput.Warning executeOutput with
              | Some warning => Error warning
              | None => EmptyString
              end in
            mret (Some {| proto.RestoreExecuteResponse.Item := updatedItem;
                          proto.RestoreExecuteResponse.Warning := warnMessage |},
                  None)
        end end end
    end end end end).

(** *** the channel between them *)

(** The gRPC channel that connects a stub to the dispatcher [s].  The
    transport is external to the bridge; this is what it does with a
    handler's results: an error travels as its message, a response travels
    unchanged, and a handler that does not return is a lost connection. *)
Definition deliver {R} (r : outcome (option R * option error) * W) : (R + error) * W :=
  match r with
  | (Normal (_, Some err), w') => (inr (TransportError (Error err)), w')
  | (Normal (Some res, None), w') => (inl res, w')
  | (Normal (None, None), w') => (inr (TransportError "nil response"), w')
  | (Panics p, w') => (inr (TransportError "transport is closing"), w')
  end.

Definition channel (s : RestoreItemActionGRPCServer) : proto.RestoreItemActionClient W :=
  {| proto.AppliesTo := fun req w => deliver (RestoreItemActionGRPCServer_AppliesTo s req w);
     proto.Execute := fun req w => deliver (RestoreItemActionGRPCServer_Execute s req w) |}.

End Bridge.

Arguments RestoreItemActionGRPCClient W : clear implicits.
Arguments RestoreItemActionGRPCServer W : clear implicits.

(** ** A serializer instance

    A compact JSON encoder and decoder over [value], to run the bridge on
    concrete documents.  Decoding into an [Unstructured] requires the object
    to name its kind, as the apimachinery decoder does. *)

Module JSON.
Definition quote : ascii := "034"%char.
Definition backslash : ascii := "092"%char.

Fixpoint escape (s : string) : string :=
  match s with
  | EmptyString => EmptyString
  | String c r =>
      if Ascii.eqb c quote || Ascii.eqb c backslash
      then String backslash (String c (escape r))
      else String c (escape r)
  end.

Definition quoted (s : string) : string :=
  String quote (escape s) ++ String quote EmptyString.

Fixpoint encode (v : value) : option string :=
  match v with
  | Null => Some "null"
  | Bool true => Some "true"
  | Bool false => Some "false"
  | Number n => Some (pretty n)
  | Str s => Some (quoted s)
  | Array l =>
      let fix elems (l : list value) : option (list string) :=
        match l with
        | [] => Some []
        | x :: r =>
            match encode x, elems r with
            | Some e, Some es => Some (e :: es)
            | _, _ => None
            end
        end in
      match elems l with
      | Some es => Some ("[" ++ String.concat "," es ++ "]")
      | None => None
      end
  | Map m =>
      let fix members (m : list (string * value)) : option (list string) :=
        match m with
        | [] => Some []
        | (k, x) :: r =>
            match encode x, members r with
            | Some e, Some es => Some ((quoted k ++ ":" ++ e) :: es)
            | _, _ => None
            end
        end in
      match members m with
      | Some es => Some ("{" ++ String.concat "," es ++ "}")
      | None => None
      end
  | Chan => None
  end.

(** [strip p s] is what follows the prefix [p] of [s]. *)
Fixpoint strip (p s : string) : option string :=
  match p, s with
  | EmptyString, _ => Some s
  | String a p', String b s' => if Ascii.eqb a b then strip p' s' else None
  | String _ _, EmptyString => None
  end.

(** The text of a string, after its opening quote. *)
Fixpoint decode_string (s : string) : option (string * string) :=
  match s with
  | EmptyString => None
  | String c r =>
      if Ascii.eqb c quote then Some (EmptyString, r)
      else if Ascii.eqb c backslash then
        match r with
        | EmptyString => None
        | String c' r' =>
            match decode_string r' with
            | Some (t, rest) => Some (String c' t, rest)
            | None => None
            end
        end
      else
        match decode_string r with
        | Some (t, rest) => Some (String c t, rest)
        | None => None
        end
  end.

Definition is_digit (c : ascii) : bool :=
  (48 <=? nat_of_ascii c)%nat && (nat_of_ascii c <=? 57)%nat.

Fixpoint decode_digits (acc : Z) (s : string) : Z * string :=
  match s with
  | EmptyString => (acc, s)
  | String c r =>
      if is_digit c
      then decode_digits (acc * 10 + Z.of_nat (nat_of_ascii c - 48)) r
      else (acc, s)
  end.

Definition starts_with_digit (s : string) : bool :=
  match s with
  | String c _ => is_digit c
  | EmptyString => false
  end.

Fixpoint decode (fuel : nat) (s : string) : option (value * string) :=
  match fuel with
  | O => None
  | S fuel =>
      match s with
      | EmptyString => None
      | String c r =>
          if Ascii.eqb c " " then decode fuel r
          else if Ascii.eqb c quote then
            match decode_string r with
            | Some (t, rest) => Some (Str t, rest)
            | None => None
            end
          else if Ascii.eqb c "[" then
            match strip "]" r with
            | Some rest => Some (Array [], rest)
            | None =>
                match decode_elems fuel r with
                | Some (l, rest) => Some (Array l, rest)
                | None => None
                end
            end
          else if Ascii.eqb c "{" then
            match strip "}" r with
            | Some rest => Some (Map [], rest)
            | None =>
                match decode_members fuel r with
                | Some (m, rest) => Some (Map m, rest)
                | None => None
                end
            end
          else if Ascii.eqb c "-" then
            if starts_with_digit r
            then let '(n, rest) := decode_digits 0 r in Some (Number (- n), rest)
            else None
          else if is_digit c then
            let '(n, rest) := decode_digits 0 s in Some (Number n, rest)
          else
            match strip "null" s, strip "true" s, strip "false" s with
            | Some rest, _, _ => Some (Null, rest)
            | _, Some rest, _ => Some (Bool true, rest)
            | _, _, Some rest => Some (Bool false, rest)
            | _, _, _ => None
            end
      end
  end
with decode_elems (fuel : nat) (s : string) : option (list value * string) :=
  match fuel with
  | O => None
  | S fuel =>
      match decode fuel s with
      | Some (x, String c rest) =>
          if Ascii.eqb c "]" then Some ([x], rest)
          else if Ascii.eqb c "," then
            match decode_elems fuel rest with
            | Some (l, rest') => Some (x :: l, rest')
            | None => None
            end
          else None
      | _ => None
      end
  end
with decode_members (fuel : nat) (s : string) : option (list (string * value) * string) :=
  match fuel with
  | O => None
  | S fuel =>
      match strip (String quote EmptyString) s with
      | None => None
      | Some r =>
          match decode_string r with
          | None => None
          | Some (k, r') =>
              match strip ":" r' with
              | None => None
              | Some r'' =>
                  match decode fuel r'' with
                  | Some (x, String c rest) =>
                      if Ascii.eqb c "}" then Some ([(k, x)], rest)
                      else if Ascii.eqb c "," then
                        match decode_members fuel rest with
                        | Some (m, rest') => Some ((k, x) :: m, rest')
                        | None => None
                        end
                      else None
                  | _ => None
                  end
              end
          end
      end
  end.

(** A whole text holds one value. *)
Definition parse (data : Bytes) : option value :=
  let s := string_of_list_byte data in
  match decode (S (String.length s)) s with
  | Some (v, EmptyString) => Some v
  | _ => None
  end.

Definition print (v : value) : Bytes + string :=
  match encode v with
  | Some s => inl (list_byte_of_string s)
  | None => inr "json: unsupported type"
  end.

Definition has_kind (m : list (string * value)) : bool :=
  existsb (fun kv => match kv with
                     | (k, Str (String _ _)) => String.eqb k "kind"
                     | _ => false
                     end) m.

#[export] Instance Marshaler_content : Marshaler (list (string * value)) :=
  fun m => print (Map m).

#[export] Instance Marshaler_Restore : Marshaler api.Restore :=
  fun r => print (Map (api.Descriptor r)).

#[export] Instance Marshaler_Unstructured : Marshaler (option unstructured.Unstructured) :=
  fun u => match u with
           | Some u => print (Map (unstructured.Object u))
           | None => print Null
           end.

#[export] Instance Unmarshaler_Unstructured : Unmarshaler unstructured.Unstructured :=
  fun data => match parse data with
              | Some (Map m) =>
                  if has_kind m then inl (unstructured.mk m)
                  else inr "Object 'Kind' is missing"
              | Some _ => inr "json: cannot unmarshal into Go value of type map[string]interface {}"
              | None => inr "invalid character"
              end.

#[export] Instance Unmarshaler_Restore : Unmarshaler api.Restore :=
  fun data => match parse data with
              | Some (Map m) => inl (api.mk m)
              | Some Null => inl (api.mk [])
              | Some _ => inr "json: cannot unmarshal into Go value of type v1.Restore"
              | None => inr "invalid character"
              end.
End JSON.

(** ** The scenario of the specification

    One plugin name, the three documents of an Execute call and the updated
    item; a world that logs the calls made on plugin implementations. *)

Module Scenario.
Definition my_action_name : string := "plugins.io/my-action".

Definition pod : unstructured.Unstructured :=
  unstructured.mk [("kind", Str "Pod")].
Definition pod_old : unstructured.Unstructured :=
  unstructured.mk [("kind", Str "Pod"); ("status", Str "old")].
Definition pod_restored : unstructured.Unstructured :=
  unstructured.mk [("kind", Str "Pod"); ("status", Str "restored")].
Definition r1 : api.Restore := api.mk [("name", Str "r1")].

Definition input : velero.RestoreItemActionExecuteInput.t :=
  {| velero.RestoreItemActionExecuteInput.Item := pod;
     velero.RestoreItemActionExecuteInput.ItemFromBackup := pod_old;
     velero.RestoreItemActionExecuteInput.Restore := r1 |}.

Definition output : velero.RestoreItemActionExecuteOutput.t :=
  {| velero.RestoreItemActionExecuteOutput.UpdatedItem := Some pod_restored;
     velero.RestoreItemActionExecuteOutput.Warning := None |}.

Definition selector : velero.ResourceSelector.t :=
  {| velero.ResourceSelector.IncludedNamespaces := ["ns1"];
     velero.ResourceSelector.ExcludedNamespaces := [];
     velero.ResourceSelector.IncludedResources := [];
     velero.ResourceSelector.ExcludedResources := ["pods"];
     velero.ResourceSelector.LabelSelector := "app=foo" |}.

Definition wire_selector : proto.AppliesToResponse.t :=
  {| proto.AppliesToResponse.IncludedNamespaces := ["ns1"];
     proto.AppliesToResponse.ExcludedNamespaces := [];
     proto.AppliesToResponse.IncludedResources := [];
     proto.AppliesToResponse.ExcludedResources := ["pods"];
     proto.AppliesToResponse.Selector := "app=foo" |}.

(** The calls that reached an implementation or the channel, oldest first. *)
Inductive Call : Type :=
| AppliesToCalled (who : string)
| ExecuteCalled (who : string) (input : velero.RestoreItemActionExecuteInput.t)
| RPCSent (method : string).

Definition Log : Type := list Call.

Definition logged (c : Call) (w : Log) : Log := app w [c].

(** An implementation that answers every call with [selector] and
    [output]. *)
Definition my_action : velero.RestoreItemAction Log :=
  {| velero.AppliesTo := fun w => (Normal (selector, None), logged (AppliesToCalled "M") w);
     velero.Execute := fun i w => (Normal (Some output, None), logged (ExecuteCalled "M" i) w) |}.

(** An implementation that panics in both operations. *)
Definition faulty_action : velero.RestoreItemAction Log :=
  {| velero.AppliesTo := fun w => (Panics (panic_value "boom"), logged (AppliesToCalled "F") w);
     velero.Execute := fun i w => (Panics (panic_value "boom"), logged (ExecuteCalled "F" i) w) |}.

(** An implementation whose updated item holds a value with no encoding. *)
Definition chan_action : velero.RestoreItemAction Log :=
  {| velero.AppliesTo := fun w => (Normal (selector, None), logged (AppliesToCalled "C") w);
     velero.Execute := fun i w =>
       (Normal (Some {| velero.RestoreItemActionExecuteOutput.UpdatedItem :=
                          Some (unstructured.mk [("kind", Str "Pod"); ("ch", Chan)]);
                        velero.RestoreItemActionExecuteOutput.Warning := None |}, None),
        logged (ExecuteCalled "C" i) w) |}.

Definition registry : gmap string (Handler Log) :=
  <["plugins.io/faulty" := ARestoreItemAction faulty_action]>
  (<["plugins.io/chan" := ARestoreItemAction chan_action]>
  (<["plugins.io/volume-snapshotter" := AnotherType "*main.VolumeSnapshotter"]>
  {[ my_action_name := ARestoreItemAction my_action ]})).

Definition server : RestoreItemActionGRPCServer Log :=
  {| mux := {| handlers := registry |} |}.

(** A channel that answers every Execute with [res], and a channel that is
    down; both log the attempt. *)
Definition answering (res : proto.RestoreExecuteResponse.t) : proto.RestoreItemActionClient Log :=
  {| proto.AppliesTo := fun _ w => (inl wire_selector, logged (RPCSent "AppliesTo") w);
     proto.Execute := fun _ w => (inl res, logged (RPCSent "Execute") w) |}.

Definition unavailable : proto.RestoreItemActionClient Log :=
  {| proto.AppliesTo := fun _ w => (inr (TransportError "unavailable"), logged (RPCSent "AppliesTo") w);
     proto.Execute := fun _ w => (inr (TransportError "unavailable"), logged (RPCSent "Execute") w) |}.

(** The encoding of an encodable value. *)
Definition bytes_of (v : value) : Bytes :=
  match JSON.print v with
  | inl data => data
  | inr _ => []
  end.

(** The request the stub sends for [input], and one whose item is cut
    short. *)
Definition request (name : string) : proto.RestoreExecuteRequest.t :=
  {| proto.RestoreExecuteRequest.Plugin := name;
     proto.RestoreExecuteRequest.Item := bytes_of (Map (unstructured.Object pod));
     proto.RestoreExecuteRequest.ItemFromBackup := bytes_of (Map (unstructured.Object pod_old));
     proto.RestoreExecuteRequest.Restore := bytes_of (Map (api.Descriptor r1)) |}.

Definition truncated_request (name : string) : proto.RestoreExecuteRequest.t :=
  {| proto.RestoreExecuteRequest.Plugin := name;
     proto.RestoreExecuteRequest.Item := list_byte_of_string "{";
     proto.RestoreExecuteRequest.ItemFromBackup := bytes_of (Map (unstructured.Object pod_old));
     proto.RestoreExecuteRequest.Restore := bytes_of (Map (api.Descriptor r1)) |}.

(** An input whose item as backed up holds a channel. *)
Definition unencodable_input : velero.RestoreItemActionExecuteInput.t :=
  {| velero.RestoreItemActionExecuteInput.Item := pod;
     velero.RestoreItemActionExecuteInput.ItemFromBackup :=
       unstructured.mk [("kind", Str "Pod"); ("events", Chan)];
     velero.RestoreItemActionExecuteInput.Restore := r1 |}.

(** A response that carries the restored Pod and a warning. *)
Definition warned_response : proto.RestoreExecuteResponse.t :=
  {| proto.RestoreExecuteResponse.Item := bytes_of (Map (unstructured.Object pod_restored));
     proto.RestoreExecuteResponse.Warning := "W" |}.
End Scenario.
(** ** More implementations and channels for the scenario *)

Module MoreScenario.
Import Scenario.

Definition denied : error := RemoteOperationError "denied".

(** An implementation that fails both operations, and still hands back a
    selector and an output next to the error. *)
Definition failing_action : velero.RestoreItemAction Log :=
  {| velero.AppliesTo := fun w => (Normal (selector, Some denied), logged (AppliesToCalled "E") w);
     velero.Execute := fun i w => (Normal (Some output, Some denied), logged (ExecuteCalled "E" i) w) |}.

Definition warned_output (warning : error) : velero.RestoreItemActionExecuteOutput.t :=
  {| velero.RestoreItemActionExecuteOutput.UpdatedItem := Some pod_restored;
     velero.RestoreItemActionExecuteOutput.Warning := Some warning |}.

(** An implementation that returns the restored Pod with [warning]. *)
Definition warning_action (warning : error) : velero.RestoreItemAction Log :=
  {| velero.AppliesTo := fun w => (Normal (selector, None), logged (AppliesToCalled "W") w);
     velero.Execute := fun i w =>
       (Normal (Some (warned_output warning), None), logged (ExecuteCalled "W" i) w) |}.

Definition pvc_warning : error := RemoteOperationError "PVC not bound".

Definition more_registry : gmap string (Handler Log) :=
  <["plugins.io/failing" := ARestoreItemAction failing_action]>
  (<["plugins.io/warning" := ARestoreItemAction (warning_action pvc_warning)]>
  {[ "plugins.io/silent-warning" := ARestoreItemAction (warning_action (errors_New EmptyString)) ]}).

Definition more_server : RestoreItemActionGRPCServer Log :=
  {| mux := {| handlers := more_registry |} |}.

(** A response whose item is cut short, with a warning. *)
Definition garbled_response : proto.RestoreExecuteResponse.t :=
  {| proto.RestoreExecuteResponse.Item := list_byte_of_string "{";
     proto.RestoreExecuteResponse.Warning := "W" |}.

(** An input whose restore descriptor holds a channel, and one whose item
    does too. *)
Definition unencodable_restore_input : velero.RestoreItemActionExecuteInput.t :=
  {| velero.RestoreItemActionExecuteInput.Item := pod;
     velero.RestoreItemActionExecuteInput.ItemFromBackup := pod_old;
     velero.RestoreItemActionExecuteInput.Restore := api.mk [("hooks", Chan)] |}.

(** A request whose restore descriptor is an array. *)
Definition array_restore_request (name : string) : proto.RestoreExecuteRequest.t :=
  {| proto.RestoreExecuteRequest.Plugin := name;
     proto.RestoreExecuteRequest.Item := bytes_of (Map (unstructured.Object pod));
     proto.RestoreExecuteRequest.ItemFromBackup := bytes_of (Map (unstructured.Object pod_old));
     proto.RestoreExecuteRequest.Restore := bytes_of (Array []) |}.
End MoreScenario.

(** ** Properties of the bridge *)

Section Properties.
Context {W : Type}.
Context `{!Marshaler (list (string * value)), !Marshaler api.Restore,
          !Marshaler (option unstructured.Unstructured),
          !Unmarshaler unstructured.Unstructured, !Unmarshaler api.Restore}.

Implicit Types (s : RestoreItemActionGRPCServer W) (c : RestoreItemActionGRPCClient W).
Implicit Types (w : W) (impl : velero.RestoreItemAction W).

(** *** The fault guard *)

Lemma withRecover_Normal {R} (body : M W (option R * option error)) w r w' :
  body w = (Normal r, w') -> withRecover body w = (Normal r, w').
Proof. intros Hb. unfold withRecover. rewrite Hb. destruct r. reflexivity. Qed.

Lemma withRecover_Panics {R} (body : M W (option R * option error)) w p w' :
  body w = (Panics p, w') ->
  withRecover body w = (Normal (None, Some (RecoveredFaultError p)), w').
Proof. intros Hb. unfold withRecover. rewrite Hb. reflexivity. Qed.

Lemma withRecover_returns {R} (body : M W (option R * option error)) w :
  exists r w', withRecover body w = (Normal r, w').
Proof.
  destruct (body w) as [[r | p] w'] eqn:Hb.
  - exists r, w'. now apply withRecover_Normal.
  - exists (None, Some (RecoveredFaultError p)), w'. now apply withRecover_Panics.
Qed.

(** *** Resolution *)

Lemma getImpl_unknown s name :
  handlers (mux s) !! name = None -> getImpl s name = inr (UnknownPluginError name).
Proof. intros Hl. unfold getImpl, getHandler. now rewrite Hl. Qed.

Lemma getImpl_registered s name impl :
  handlers (mux s) !! name = Some (ARestoreItemAction impl) -> getImpl s name = inl impl.
Proof. intros Hl. unfold getImpl, getHandler. now rewrite Hl. Qed.

Lemma getImpl_other_type s name T :
  handlers (mux s) !! name = Some (AnotherType T) ->
  getImpl s name = inr (NotARestoreItemAction T).
Proof. intros Hl. unfold getImpl, getHandler. now rewrite Hl. Qed.

(** A call whose plugin name does not resolve ends at once, with the
    resolution error and the world as it was. *)
Lemma AppliesTo_unresolved s req w err :
  getImpl s (proto.AppliesToRequest.Plugin req) = inr err ->
  RestoreItemActionGRPCServer_AppliesTo s req w = (Normal (None, Some err), w).
Proof.
  intros Hg. unfold RestoreItemActionGRPCServer_AppliesTo.
  apply withRecover_Normal. now rewrite Hg.
Qed.

Lemma Execute_unresolved s req w err :
  getImpl s (proto.RestoreExecuteRequest.Plugin req) = inr err ->
  RestoreItemActionGRPCServer_Execute s req w = (Normal (None, Some err), w).
Proof.
  intros Hg. unfold RestoreItemActionGRPCServer_Execute.
  apply withRecover_Normal. now rewrite Hg.
Qed.

(** The body of Execute once the implementation is resolved and the three
    payloads are decoded. *)
Lemma Execute_invoked s req w impl item itemFromBackup restoreObj :
  getImpl s (proto.RestoreExecuteRequest.Plugin req) = inl impl ->
  json_Unmarshal (proto.RestoreExecuteRequest.Item req) = inl item ->
  json_Unmarshal (proto.RestoreExecuteRequest.ItemFromBackup req) = inl itemFromBackup ->
  json_Unmarshal (proto.RestoreExecuteRequest.Restore req) = inl restoreObj ->
  RestoreItemActionGRPCServer_Execute s req w =
  withRecover (
    '(executeOutput, err) ← velero.Execute impl
        {| velero.RestoreItemActionExecuteInput.Item := item;
           velero.RestoreItemActionExecuteInput.ItemFromBackup := itemFromBackup;
           velero.RestoreItemActionExecuteInput.Restore := restoreObj |};
    match err with
    | Some e => mret (None, Some e)
    | None =>
    match executeOutput with
    | None => panic nil_dereference
    | Some executeOutput =>
    match json_Marshal (velero.RestoreItemActionExecuteOutput.UpdatedItem executeOutput) with
    | inr err => mret (None, Some err)
    | inl updatedItem =>
        mret (Some {| proto.RestoreExecuteResponse.Item := updatedItem;
                      proto.RestoreExecuteResponse.Warning :=
                        match velero.RestoreItemActionExecuteOutput.Warning executeOutput with
                        | Some warning => Error warning
                        | None => EmptyString
                        end |},
              None)
    end end end) w.
Proof.
  intros Hg Hi Hb Hr. unfold RestoreItemActionGRPCServer_Execute.
  now rewrite Hg, Hi, Hb, Hr.
Qed.

(** C1. A panic raised while a handler runs never leaves the handler: both
    AppliesTo and Execute return normally on every request, and when the
    registered implementation panics with [p] (or Execute dereferences the
    nil output of an implementation) the call returns no response and a
    RecoveredFaultError carrying the fault. *)
Theorem Dispatcher_recovers_panics s :
  (forall req w, exists r w', RestoreItemActionGRPCServer_AppliesTo s req w = (Normal r, w')) /\
  (forall req w, exists r w', RestoreItemActionGRPCServer_Execute s req w = (Normal r, w')) /\
  (forall req w impl p w',
      getImpl s (proto.AppliesToRequest.Plugin req) = inl impl ->
      velero.AppliesTo impl w = (Panics p, w') ->
      RestoreItemActionGRPCServer_AppliesTo s req w =
      (Normal (None, Some (RecoveredFaultError p)), w')) /\
  (forall req w impl item itemFromBackup restoreObj p w',
      getImpl s (proto.RestoreExecuteRequest.Plugin req) = inl impl ->
      json_Unmarshal (proto.RestoreExecuteRequest.Item req) = inl item ->
      json_Unmarshal (proto.RestoreExecuteRequest.ItemFromBackup req) = inl itemFromBackup ->
      json_Unmarshal (proto.RestoreExecuteRequest.Restore req) = inl restoreObj ->
      velero.Execute impl
        {| velero.RestoreItemActionExecuteInput.Item := item;
           velero.RestoreItemActionExecuteInput.ItemFromBackup := itemFromBackup;
           velero.RestoreItemActionExecuteInput.Restore := restoreObj |} w = (Panics p, w') ->
      RestoreItemActionGRPCServer_Execute s req w =
      (Normal (None, Some (RecoveredFaultError p)), w')) /\
  (forall req w impl item itemFromBackup restoreObj w',
      getImpl s (proto.RestoreExecuteRequest.Plugin req) = inl impl ->
      json_Unmarshal (proto.RestoreExecuteRequest.Item req) = inl item ->
      json_Unmarshal (proto.RestoreExecuteRequest.ItemFromBackup req) = inl itemFromBackup ->
      json_Unmarshal (proto.RestoreExecuteRequest.Restore req) = inl restoreObj ->
      velero.Execute impl
        {| velero.RestoreItemActionExecuteInput.Item := item;
           velero.RestoreItemActionExecuteInput.ItemFromBackup := itemFromBackup;
           velero.RestoreItemActionExecuteInput.Restore := restoreObj |} w = (Normal (None, None), w') ->
      RestoreItemActionGRPCServer_Execute s req w =
      (Normal (None, Some (RecoveredFaultError nil_dereference)), w')).
Proof.
  repeat split.
  - intros req w. apply withRecover_returns.
  - intros req w. apply withRecover_returns.
  - intros req w impl p w' Hg Hp. unfold RestoreItemActionGRPCServer_AppliesTo.
    apply withRecover_Panics. rewrite Hg. unfold mbind, M_bind. now rewrite Hp.
  - intros req w impl item itemFromBackup restoreObj p w' Hg Hi Hb Hr Hp.
    rewrite (Execute_invoked _ _ _ _ _ _ _ Hg Hi Hb Hr).
    apply withRecover_Panics. unfold mbind, M_bind. now rewrite Hp.
  - intros req w impl item itemFromBackup restoreObj w' Hg Hi Hb Hr Hn.
    rewrite (Execute_invoked _ _ _ _ _ _ _ Hg Hi Hb Hr).
    apply withRecover_Panics. unfold mbind, M_bind. now rewrite Hn.
Qed.

(** C4. A plugin name with no entry in the Registry fails AppliesTo and
    Execute with the UnknownPluginError that names it, and leaves the world
    untouched whatever is registered: no implementation runs.  A registered
    name resolves to its registry entry, the same on every call. *)
Theorem unknown_plugin_is_not_dispatched s :
  (forall req w,
      handlers (mux s) !! proto.AppliesToRequest.Plugin req = None ->
      RestoreItemActionGRPCServer_AppliesTo s req w =
      (Normal (None, Some (UnknownPluginError (proto.AppliesToRequest.Plugin req))), w)) /\
  (forall req w,
      handlers (mux s) !! proto.RestoreExecuteRequest.Plugin req = None ->
      RestoreItemActionGRPCServer_Execute s req w =
      (Normal (None, Some (UnknownPluginError (proto.RestoreExecuteRequest.Plugin req))), w)) /\
  (forall name h, handlers (mux s) !! name = Some h -> getHandler (mux s) name = inl h) /\
  (forall name impl,
      handlers (mux s) !! name = Some (ARestoreItemAction impl) -> getImpl s name = inl impl).
Proof.
  repeat split.
  - intros req w Hl. apply AppliesTo_unresolved. now apply getImpl_unknown.
  - intros req w Hl. apply Execute_unresolved. now apply getImpl_unknown.
  - intros name h Hl. unfold getHandler. now rewrite Hl.
  - intros name impl. apply getImpl_registered.
Qed.

(** C9. A plugin name that resolves to an object of a type without the
    RestoreItemAction operations fails AppliesTo and Execute with the error
    that names that type, and leaves the world untouched: nothing is
    invoked on the object. *)
Theorem handler_of_another_type_is_rejected s name T :
  handlers (mux s) !! name = Some (AnotherType T) ->
  getImpl s name = inr (NotARestoreItemAction T) /\
  Error (NotARestoreItemAction T) = T ++ " is not a restore item action" /\
  (forall req w,
      proto.AppliesToRequest.Plugin req = name ->
      RestoreItemActionGRPCServer_AppliesTo s req w =
      (Normal (None, Some (NotARestoreItemAction T)), w)) /\
  (forall req w,
      proto.RestoreExecuteRequest.Plugin req = name ->
      RestoreItemActionGRPCServer_Execute s req w =
      (Normal (None, Some (NotARestoreItemAction T)), w)).
Proof.
  intros Hl. pose proof (getImpl_other_type _ _ _ Hl) as Hg.
  repeat split; try assumption.
  - intros req w <-. now apply AppliesTo_unresolved.
  - intros req w <-. now apply Execute_unresolved.
Qed.

(** *** The serializer *)

Lemma json_Marshal_inl {T} `{Marshaler T} (v : T) data :
  marshal v = inl data -> json_Marshal v = inl data.
Proof. intros Hm. unfold json_Marshal. now rewrite Hm. Qed.

Lemma json_Marshal_inr {T} `{Marshaler T} (v : T) msg :
  marshal v = inr msg -> json_Marshal v = inr (SerializationError msg).
Proof. intros Hm. unfold json_Marshal. now rewrite Hm. Qed.

Lemma json_Unmarshal_inl {T} `{Unmarshaler T} data (v : T) :
  unmarshal data = inl v -> json_Unmarshal data = inl v.
Proof. intros Hm. unfold json_Unmarshal. now rewrite Hm. Qed.

Lemma json_Unmarshal_inr {T} `{Unmarshaler T} data msg :
  unmarshal (T:=T) data = inr msg -> json_Unmarshal (T:=T) data = inr (SerializationError msg).
Proof. intros Hm. unfold json_Unmarshal. now rewrite Hm. Qed.

Lemma not_encodable {T} `{Marshaler T} (v : T) :
  ~ encodable v -> exists msg, marshal v = inr msg.
Proof.
  intros Hn. destruct (marshal v) as [data | msg] eqn:Hm.
  - exfalso. apply Hn. now exists data.
  - now exists msg.
Qed.

Lemma not_decodable {T} `{Unmarshaler T} data :
  ~ decodable T data -> exists msg, unmarshal (T:=T) data = inr msg.
Proof.
  intros Hn. destruct (unmarshal (T:=T) data) as [v | msg] eqn:Hm.
  - exfalso. apply Hn. now exists v.
  - now exists msg.
Qed.

(** *** The stub *)

(** What the stub's Execute returns always has one of two shapes. *)
Lemma Client_Execute_shape c input w out err w' :
  RestoreItemActionGRPCClient_Execute c input w = ((out, err), w') ->
  match out with
  | Some o => err = None /\ is_Some (velero.RestoreItemActionExecuteOutput.UpdatedItem o)
  | None => is_Some err
  end.
Proof.
  unfold RestoreItemActionGRPCClient_Execute.
  destruct (json_Marshal _) as [itemJSON | e1]; [| intros [= <- <- <-]; eauto].
  destruct (json_Marshal _) as [itemFromBackupJSON | e2]; [| intros [= <- <- <-]; eauto].
  destruct (json_Marshal _) as [restoreJSON | e3]; [| intros [= <- <- <-]; eauto].
  cbv zeta. destruct (proto.Execute _ _ _) as [[res | e4] w1]; [| intros [= <- <- <-]; eauto].
  destruct (json_Unmarshal _) as [updatedItem | e5]; intros [= <- <- <-]; simpl; eauto.
Qed.

(** C2. When the RPC answers with a response [res] whose item decodes, the
    stub returns that item with no error, and with it a warning that is nil
    for an empty warning string and otherwise an error whose message is
    that string.  Whatever the stub returns, an output (the only place a
    warning lives in) holds an updated item and comes with no error. *)
Theorem Stub_Execute_passes_warning_through c input w :
  (forall itemJSON itemFromBackupJSON restoreJSON res w' updatedItem,
      json_Marshal (unstructured.UnstructuredContent
                      (velero.RestoreItemActionExecuteInput.Item input)) = inl itemJSON ->
      json_Marshal (unstructured.UnstructuredContent
                      (velero.RestoreItemActionExecuteInput.ItemFromBackup input)) = inl itemFromBackupJSON ->
      json_Marshal (velero.RestoreItemActionExecuteInput.Restore input) = inl restoreJSON ->
      proto.Execute (grpcClient c)
        {| proto.RestoreExecuteRequest.Plugin := plugin c;
           proto.RestoreExecuteRequest.Item := itemJSON;
           proto.RestoreExecuteRequest.ItemFromBackup := itemFromBackupJSON;
           proto.RestoreExecuteRequest.Restore := restoreJSON |} w = (inl res, w') ->
      json_Unmarshal (proto.RestoreExecuteResponse.Item res) = inl updatedItem ->
      exists warning,
        RestoreItemActionGRPCClient_Execute c input w =
        ((Some {| velero.RestoreItemActionExecuteOutput.UpdatedItem := Some updatedItem;
                  velero.RestoreItemActionExecuteOutput.Warning := warning |}, None), w') /\
        (proto.RestoreExecuteResponse.Warning res = EmptyString -> warning = None) /\
        (proto.RestoreExecuteResponse.Warning res <> EmptyString ->
         exists e, warning = Some e /\ Error e = proto.RestoreExecuteResponse.Warning res)) /\
  (forall out err w',
      RestoreItemActionGRPCClient_Execute c input w = ((out, err), w') ->
      match out with
      | Some o => err = None /\ is_Some (velero.RestoreItemActionExecuteOutput.UpdatedItem o)
      | None => is_Some err
      end).
Proof.
  split; [| apply Client_Execute_shape].
  intros itemJSON itemFromBackupJSON restoreJSON res w' updatedItem Hi Hb Hr Hc Hu.
  unfold RestoreItemActionGRPCClient_Execute. rewrite Hi, Hb, Hr. cbv zeta.
  rewrite Hc, Hu. eexists. split; [reflexivity |].
  destruct (decide (proto.RestoreExecuteResponse.Warning res = EmptyString)) as [He | Hne].
  - split; [reflexivity | intros Hn; now destruct Hn].
  - split; [intros He; now destruct Hne |]. intros _. eexists. split; reflexivity.
Qed.

(** C5. When one of the three documents of the input has no encoding, the
    stub's Execute returns a SerializationError and the world it was given,
    the same for every gRPC channel: the channel is not used. *)
Theorem Stub_Execute_encoding_failure_sends_nothing name input w :
  ~ encodable (unstructured.UnstructuredContent
                 (velero.RestoreItemActionExecuteInput.Item input)) \/
  ~ encodable (unstructured.UnstructuredContent
                 (velero.RestoreItemActionExecuteInput.ItemFromBackup input)) \/
  ~ encodable (velero.RestoreItemActionExecuteInput.Restore input) ->
  exists msg, forall g,
    RestoreItemActionGRPCClient_Execute {| plugin := name; grpcClient := g |} input w =
    ((None, Some (SerializationError msg)), w).
Proof.
  intros Hbad. unfold RestoreItemActionGRPCClient_Execute, json_Marshal.
  destruct (marshal (unstructured.UnstructuredContent
                       (velero.RestoreItemActionExecuteInput.Item input)))
    as [itemJSON | m1] eqn:H1; [| now exists m1].
  destruct (marshal (unstructured.UnstructuredContent
                       (velero.RestoreItemActionExecuteInput.ItemFromBackup input)))
    as [itemFromBackupJSON | m2] eqn:H2; [| now exists m2].
  destruct (marshal (velero.RestoreItemActionExecuteInput.Restore input))
    as [restoreJSON | m3] eqn:H3; [| now exists m3].
  exfalso. destruct Hbad as [Hn | [Hn | Hn]]; apply Hn; eexists; eassumption.
Qed.

(** C8. When the transport fails the stub's AppliesTo call with [err], the
    stub returns [err] itself and the zero ResourceSelector.  Every call has
    one of two outcomes: the selector built from all five fields of the
    response and no error, or the zero selector and the transport's error. *)
Theorem Stub_AppliesTo_transport_failure c w :
  (forall err w',
      proto.AppliesTo (grpcClient c) {| proto.AppliesToRequest.Plugin := plugin c |} w = (inr err, w') ->
      RestoreItemActionGRPCClient_AppliesTo c w = ((velero.ResourceSelector.zero, Some err), w')) /\
  ((exists res w',
       proto.AppliesTo (grpcClient c) {| proto.AppliesToRequest.Plugin := plugin c |} w = (inl res, w') /\
       RestoreItemActionGRPCClient_AppliesTo c w =
       (({| velero.ResourceSelector.IncludedNamespaces := proto.AppliesToResponse.IncludedNamespaces res;
            velero.ResourceSelector.ExcludedNamespaces := proto.AppliesToResponse.ExcludedNamespaces res;
            velero.ResourceSelector.IncludedResources := proto.AppliesToResponse.IncludedResources res;
            velero.ResourceSelector.ExcludedResources := proto.AppliesToResponse.ExcludedResources res;
            velero.ResourceSelector.LabelSelector := proto.AppliesToResponse.Selector res |}, None), w')) \/
   (exists err w',
       proto.AppliesTo (grpcClient c) {| proto.AppliesToRequest.Plugin := plugin c |} w = (inr err, w') /\
       RestoreItemActionGRPCClient_AppliesTo c w = ((velero.ResourceSelector.zero, Some err), w'))).
Proof.
  unfold RestoreItemActionGRPCClient_AppliesTo. split.
  - intros err w' Hc. now rewrite Hc.
  - destruct (proto.AppliesTo _ _ _) as [[res | err] w'].
    + left. now exists res, w'.
    + right. now exists err, w'.
Qed.

(** *** The dispatcher *)

(** C6. An Execute request of which one payload field does not decode is
    failed with an error and the world untouched, so no implementation has
    run; once the plugin name has resolved to an implementation, that error
    is a SerializationError. *)
Theorem Dispatcher_Execute_decoding_failure_invokes_nothing s req w :
  ~ decodable unstructured.Unstructured (proto.RestoreExecuteRequest.Item req) \/
  ~ decodable unstructured.Unstructured (proto.RestoreExecuteRequest.ItemFromBackup req) \/
  ~ decodable api.Restore (proto.RestoreExecuteRequest.Restore req) ->
  (exists err, RestoreItemActionGRPCServer_Execute s req w = (Normal (None, Some err), w)) /\
  (forall impl,
      getImpl s (proto.RestoreExecuteRequest.Plugin req) = inl impl ->
      exists msg,
        RestoreItemActionGRPCServer_Execute s req w =
        (Normal (None, Some (SerializationError msg)), w)).
Proof.
  intros Hbad.
  assert (Hres : forall impl,
             getImpl s (proto.RestoreExecuteRequest.Plugin req) = inl impl ->
             exists msg,
               RestoreItemActionGRPCServer_Execute s req w =
               (Normal (None, Some (SerializationError msg)), w)).
  { intros impl Hg. unfold RestoreItemActionGRPCServer_Execute. rewrite Hg.
    unfold json_Unmarshal.
    destruct (unmarshal (T:=unstructured.Unstructured) (proto.RestoreExecuteRequest.Item req))
      as [item | m1] eqn:H1; [| now exists m1].
    destruct (unmarshal (T:=unstructured.Unstructured) (proto.RestoreExecuteRequest.ItemFromBackup req))
      as [itemFromBackup | m2] eqn:H2; [| now exists m2].
    destruct (unmarshal (T:=api.Restore) (proto.RestoreExecuteRequest.Restore req))
      as [restoreObj | m3] eqn:H3; [| now exists m3].
    exfalso. destruct Hbad as [Hn | [Hn | Hn]]; apply Hn; eexists; eassumption. }
  split; [| exact Hres].
  destruct (getImpl s (proto.RestoreExecuteRequest.Plugin req)) as [impl | err] eqn:Hg.
  - destruct (Hres impl eq_refl) as [msg Hm]. now exists (SerializationError msg).
  - exists err. now apply Execute_unresolved.
Qed.

(** C10. When the implementation has run and returned an output without an
    error, and the updated item of that output has no encoding, Execute
    returns no response and the SerializationError of the encoder; the
    world is the one the implementation left. *)
Theorem Dispatcher_Execute_result_encoding_failure
    s req w impl item itemFromBackup restoreObj executeOutput msg w' :
  getImpl s (proto.RestoreExecuteRequest.Plugin req) = inl impl ->
  json_Unmarshal (proto.RestoreExecuteRequest.Item req) = inl item ->
  json_Unmarshal (proto.RestoreExecuteRequest.ItemFromBackup req) = inl itemFromBackup ->
  json_Unmarshal (proto.RestoreExecuteRequest.Restore req) = inl restoreObj ->
  velero.Execute impl
    {| velero.RestoreItemActionExecuteInput.Item := item;
       velero.RestoreItemActionExecuteInput.ItemFromBackup := itemFromBackup;
       velero.RestoreItemActionExecuteInput.Restore := restoreObj |} w =
  (Normal (Some executeOutput, None), w') ->
  marshal (velero.RestoreItemActionExecuteOutput.UpdatedItem executeOutput) = inr msg ->
  RestoreItemActionGRPCServer_Execute s req w =
  (Normal (None, Some (SerializationError msg)), w').
Proof.
  intros Hg Hi Hb Hr He Hm.
  rewrite (Execute_invoked _ _ _ _ _ _ _ Hg Hi Hb Hr).
  apply withRecover_Normal. unfold mbind, M_bind. rewrite He.
  now rewrite (json_Marshal_inr _ _ Hm).
Qed.

(** What Execute answers when the implementation returned an output whose
    updated item encodes. *)
Lemma Execute_completed s req w impl item itemFromBackup restoreObj executeOutput updatedItem w' :
  getImpl s (proto.RestoreExecuteRequest.Plugin req) = inl impl ->
  json_Unmarshal (proto.RestoreExecuteRequest.Item req) = inl item ->
  json_Unmarshal (proto.RestoreExecuteRequest.ItemFromBackup req) = inl itemFromBackup ->
  json_Unmarshal (proto.RestoreExecuteRequest.Restore req) = inl restoreObj ->
  velero.Execute impl
    {| velero.RestoreItemActionExecuteInput.Item := item;
       velero.RestoreItemActionExecuteInput.ItemFromBackup := itemFromBackup;
       velero.RestoreItemActionExecuteInput.Restore := restoreObj |} w =
  (Normal (Some executeOutput, None), w') ->
  marshal (velero.RestoreItemActionExecuteOutput.UpdatedItem executeOutput) = inl updatedItem ->
  RestoreItemActionGRPCServer_Execute s req w =
  (Normal (Some {| proto.RestoreExecuteResponse.Item := updatedItem;
                   proto.RestoreExecuteResponse.Warning :=
                     match velero.RestoreItemActionExecuteOutput.Warning executeOutput with
                     | Some warning => Error warning
                     | None => EmptyString
                     end |}, None), w').
Proof.
  intros Hg Hi Hb Hr He Hm.
  rewrite (Execute_invoked _ _ _ _ _ _ _ Hg Hi Hb Hr).
  apply withRecover_Normal. unfold mbind, M_bind. rewrite He.
  now rewrite (json_Marshal_inl _ _ Hm).
Qed.

(** *** Both sides together *)

(** C7. On a successful AppliesTo the dispatcher copies the five fields of
    the implementation's selector into the response, the stub copies the
    five fields of a response into the ResourceSelector, and the stub
    connected to the dispatcher returns the implementation's selector
    itself. *)
Theorem selector_fields_are_mapped_one_to_one :
  (forall s req w impl appliesTo w',
      getImpl s (proto.AppliesToRequest.Plugin req) = inl impl ->
      velero.AppliesTo impl w = (Normal (appliesTo, None), w') ->
      RestoreItemActionGRPCServer_AppliesTo s req w =
      (Normal (Some {| proto.AppliesToResponse.IncludedNamespaces := velero.ResourceSelector.IncludedNamespaces appliesTo;
                       proto.AppliesToResponse.ExcludedNamespaces := velero.ResourceSelector.ExcludedNamespaces appliesTo;
                       proto.AppliesToResponse.IncludedResources := velero.ResourceSelector.IncludedResources appliesTo;
                       proto.AppliesToResponse.ExcludedResources := velero.ResourceSelector.ExcludedResources appliesTo;
                       proto.AppliesToResponse.Selector := velero.ResourceSelector.LabelSelector appliesTo |},
               None), w')) /\
  (forall c w res w',
      proto.AppliesTo (grpcClient c) {| proto.AppliesToRequest.Plugin := plugin c |} w = (inl res, w') ->
      RestoreItemActionGRPCClient_AppliesTo c w =
      (({| velero.ResourceSelector.IncludedNamespaces := proto.AppliesToResponse.IncludedNamespaces res;
           velero.ResourceSelector.ExcludedNamespaces := proto.AppliesToResponse.ExcludedNamespaces res;
           velero.ResourceSelector.IncludedResources := proto.AppliesToResponse.IncludedResources res;
           velero.ResourceSelector.ExcludedResources := proto.AppliesToResponse.ExcludedResources res;
           velero.ResourceSelector.LabelSelector := proto.AppliesToResponse.Selector res |}, None), w')) /\
  (forall s name w impl appliesTo w',
      getImpl s name = inl impl ->
      velero.AppliesTo impl w = (Normal (appliesTo, None), w') ->
      RestoreItemActionGRPCClient_AppliesTo {| plugin := name; grpcClient := channel s |} w =
      ((appliesTo, None), w')).
Proof.
  assert (Hserver : forall s req w impl appliesTo w',
             getImpl s (proto.AppliesToRequest.Plugin req) = inl impl ->
             velero.AppliesTo impl w = (Normal (appliesTo, None), w') ->
             RestoreItemActionGRPCServer_AppliesTo s req w =
             (Normal (Some {| proto.AppliesToResponse.IncludedNamespaces := velero.ResourceSelector.IncludedNamespaces appliesTo;
                              proto.AppliesToResponse.ExcludedNamespaces := velero.ResourceSelector.ExcludedNamespaces appliesTo;
                              proto.AppliesToResponse.IncludedResources := velero.ResourceSelector.IncludedResources appliesTo;
                              proto.AppliesToResponse.ExcludedResources := velero.ResourceSelector.ExcludedResources appliesTo;
                              proto.AppliesToResponse.Selector := velero.ResourceSelector.LabelSelector appliesTo |},
                      None), w')).
  { intros s req w impl appliesTo w' Hg Ha.
    unfold RestoreItemActionGRPCServer_AppliesTo. apply withRecover_Normal.
    rewrite Hg. unfold mbind, M_bind. now rewrite Ha. }
  split; [exact Hserver | split].
  - intros c w res w' Hc. unfold RestoreItemActionGRPCClient_AppliesTo. now rewrite Hc.
  - intros s name w impl appliesTo w' Hg Ha.
    unfold RestoreItemActionGRPCClient_AppliesTo. cbn [grpcClient plugin channel proto.AppliesTo].
    rewrite (Hserver s {| proto.AppliesToRequest.Plugin := name |} w impl appliesTo w' Hg Ha).
    cbn. now destruct appliesTo.
Qed.

(** C3. The scenario of the specification: the Registry binds
    plugins.io/my-action to an implementation [M]; the stub for that name
    executes on the Pod item, the item as it was backed up and the restore
    descriptor r1.  When the serializer round-trips these documents and
    [M], run on them, returns the restored Pod without a warning or an
    error, the stub returns the restored Pod, no warning and no error, in
    the world [M] left. *)
Theorem end_to_end_success (impl : velero.RestoreItemAction W) w w' :
  round_trips (unstructured.UnstructuredContent Scenario.pod) Scenario.pod ->
  round_trips (unstructured.UnstructuredContent Scenario.pod_old) Scenario.pod_old ->
  round_trips Scenario.r1 Scenario.r1 ->
  round_trips (Some Scenario.pod_restored) Scenario.pod_restored ->
  velero.Execute impl
    {| velero.RestoreItemActionExecuteInput.Item := Scenario.pod;
       velero.RestoreItemActionExecuteInput.ItemFromBackup := Scenario.pod_old;
       velero.RestoreItemActionExecuteInput.Restore := Scenario.r1 |} w =
  (Normal (Some {| velero.RestoreItemActionExecuteOutput.UpdatedItem := Some Scenario.pod_restored;
                   velero.RestoreItemActionExecuteOutput.Warning := None |}, None), w') ->
  RestoreItemActionGRPCClient_Execute
    {| plugin := "plugins.io/my-action";
       grpcClient := channel
         {| mux := {| handlers := {[ "plugins.io/my-action" := ARestoreItemAction impl ]} |} |} |}
    {| velero.RestoreItemActionExecuteInput.Item := Scenario.pod;
       velero.RestoreItemActionExecuteInput.ItemFromBackup := Scenario.pod_old;
       velero.RestoreItemActionExecuteInput.Restore := Scenario.r1 |} w =
  ((Some {| velero.RestoreItemActionExecuteOutput.UpdatedItem := Some Scenario.pod_restored;
            velero.RestoreItemActionExecuteOutput.Warning := None |}, None), w').
Proof.
  intros [itemJSON [Hi Hi']] [itemFromBackupJSON [Hb Hb']] [restoreJSON [Hr Hr']]
         [updatedItem [Hu Hu']] HM.
  unfold RestoreItemActionGRPCClient_Execute.
  cbn [velero.RestoreItemActionExecuteInput.Item
       velero.RestoreItemActionExecuteInput.ItemFromBackup
       velero.RestoreItemActionExecuteInput.Restore].
  rewrite (json_Marshal_inl _ _ Hi), (json_Marshal_inl _ _ Hb), (json_Marshal_inl _ _ Hr).
  cbv zeta. cbn [grpcClient plugin channel proto.Execute].
  erewrite Execute_completed; cycle 1.
  - apply getImpl_registered. cbn [mux handlers proto.RestoreExecuteRequest.Plugin].
    apply lookup_singleton_eq.
  - apply json_Unmarshal_inl, Hi'.
  - apply json_Unmarshal_inl, Hb'.
  - apply json_Unmarshal_inl, Hr'.
  - exact HM.
  - exact Hu.
  - cbn [deliver proto.RestoreExecuteResponse.Item proto.RestoreExecuteResponse.Warning
         velero.RestoreItemActionExecuteOutput.Warning].
    rewrite (json_Unmarshal_inl _ _ Hu'). reflexivity.
Qed.

End Properties.

(** ** The properties on the scenario, with the JSON serializer *)

Section OnTheScenario.
Import JSON Scenario.

(** After the call that faulted, the same server answers the next call, to
    another plugin, as usual. *)
Example server_answers_after_a_fault :
  let '(_, w1) := RestoreItemActionGRPCServer_Execute server (request "plugins.io/faulty") [] in
  RestoreItemActionGRPCServer_Execute server (request my_action_name) w1 =
  (Normal (Some {| proto.RestoreExecuteResponse.Item := bytes_of (Map (unstructured.Object pod_restored));
                   proto.RestoreExecuteResponse.Warning := EmptyString |}, None),
   [ExecuteCalled "F" input; ExecuteCalled "M" input]).
Proof. reflexivity. Qed.

(** The serializer round-trips the documents of the scenario, and refuses an
    object that does not name its kind. *)
Example JSON_round_trips_the_scenario :
  round_trips (unstructured.UnstructuredContent pod_old) pod_old /\
  round_trips r1 r1 /\
  round_trips (Some pod_restored) pod_restored /\
  ~ decodable unstructured.Unstructured (bytes_of (Map [("status", Str "old")])).
Proof.
  repeat split; try (eexists; split; reflexivity).
  intros [v Hv]. vm_compute in Hv. discriminate Hv.
Qed.

Lemma Dispatcher_recovers_panics_witness :
  RestoreItemActionGRPCServer_AppliesTo server
    {| proto.AppliesToRequest.Plugin := "plugins.io/faulty" |} [] =
  (Normal (None, Some (RecoveredFaultError (panic_value "boom"))), [AppliesToCalled "F"]) /\
  RestoreItemActionGRPCServer_Execute server (request "plugins.io/faulty") [] =
  (Normal (None, Some (RecoveredFaultError (panic_value "boom"))), [ExecuteCalled "F" input]).
Proof.
  destruct (Dispatcher_recovers_panics server) as (_ & _ & HA & HE & _). split.
  - apply (HA {| proto.AppliesToRequest.Plugin := "plugins.io/faulty" |} [] faulty_action);
      reflexivity.
  - apply (HE (request "plugins.io/faulty") [] faulty_action pod pod_old r1); reflexivity.
Defined.

Lemma Stub_Execute_passes_warning_through_witness :
  exists warning,
    RestoreItemActionGRPCClient_Execute
      {| plugin := my_action_name; grpcClient := answering warned_response |} input [] =
    ((Some {| velero.RestoreItemActionExecuteOutput.UpdatedItem := Some pod_restored;
              velero.RestoreItemActionExecuteOutput.Warning := warning |}, None),
     [RPCSent "Execute"]) /\
    (proto.RestoreExecuteResponse.Warning warned_response = EmptyString -> warning = None) /\
    (proto.RestoreExecuteResponse.Warning warned_response <> EmptyString ->
     exists e, warning = Some e /\ Error e = proto.RestoreExecuteResponse.Warning warned_response).
Proof.
  apply (proj1 (Stub_Execute_passes_warning_through
                  {| plugin := my_action_name; grpcClient := answering warned_response |}
                  input [])
           (bytes_of (Map (unstructured.Object pod)))
           (bytes_of (Map (unstructured.Object pod_old)))
           (bytes_of (Map (api.Descriptor r1)))); reflexivity.
Defined.

Lemma end_to_end_success_witness :
  RestoreItemActionGRPCClient_Execute
    {| plugin := "plugins.io/my-action";
       grpcClient := channel
         {| mux := {| handlers := {[ "plugins.io/my-action" := ARestoreItemAction my_action ]} |} |} |}
    input [] =
  ((Some output, None), [ExecuteCalled "M" input]).
Proof.
  apply (end_to_end_success my_action [] [ExecuteCalled "M" input]);
    [eexists; split; reflexivity .. | reflexivity].
Defined.

Lemma unknown_plugin_is_not_dispatched_witness :
  RestoreItemActionGRPCServer_AppliesTo server
    {| proto.AppliesToRequest.Plugin := "plugins.io/absent" |} [] =
  (Normal (None, Some (UnknownPluginError "plugins.io/absent")), []) /\
  RestoreItemActionGRPCServer_Execute server (request "plugins.io/absent") [] =
  (Normal (None, Some (UnknownPluginError "plugins.io/absent")), []) /\
  getImpl server my_action_name = inl my_action.
Proof.
  destruct (unknown_plugin_is_not_dispatched server) as (HA & HE & _ & HR).
  split; [| split].
  - apply (HA {| proto.AppliesToRequest.Plugin := "plugins.io/absent" |} []). reflexivity.
  - apply (HE (request "plugins.io/absent") []). reflexivity.
  - apply HR. reflexivity.
Defined.

Lemma Stub_Execute_encoding_failure_sends_nothing_witness :
  exists msg, forall g : proto.RestoreItemActionClient Log,
    RestoreItemActionGRPCClient_Execute
      {| plugin := my_action_name; grpcClient := g |} unencodable_input [] =
    ((None, Some (SerializationError msg)), []).
Proof.
  apply (Stub_Execute_encoding_failure_sends_nothing my_action_name unencodable_input []).
  right. left. intros [data Hd]. vm_compute in Hd. discriminate Hd.
Defined.

Lemma Dispatcher_Execute_decoding_failure_invokes_nothing_witness :
  (exists err,
      RestoreItemActionGRPCServer_Execute server (truncated_request my_action_name) [] =
      (Normal (None, Some err), [])) /\
  (exists msg,
      RestoreItemActionGRPCServer_Execute server (truncated_request my_action_name) [] =
      (Normal (None, Some (SerializationError msg)), [])).
Proof.
  assert (Hbad : ~ decodable unstructured.Unstructured
                   (proto.RestoreExecuteRequest.Item (truncated_request my_action_name))).
  { intros [v Hv]. vm_compute in Hv. discriminate Hv. }
  destruct (Dispatcher_Execute_decoding_failure_invokes_nothing
              server (truncated_request my_action_name) [] (or_introl Hbad)) as [Herr Hser].
  split; [exact Herr |]. apply (Hser my_action). reflexivity.
Defined.

Lemma selector_fields_are_mapped_one_to_one_witness :
  RestoreItemActionGRPCServer_AppliesTo server
    {| proto.AppliesToRequest.Plugin := my_action_name |} [] =
  (Normal (Some wire_selector, None), [AppliesToCalled "M"]) /\
  RestoreItemActionGRPCClient_AppliesTo
    {| plugin := my_action_name; grpcClient := answering warned_response |} [] =
  ((selector, None), [RPCSent "AppliesTo"]) /\
  RestoreItemActionGRPCClient_AppliesTo
    {| plugin := my_action_name; grpcClient := channel server |} [] =
  ((selector, None), [AppliesToCalled "M"]).
Proof.
  destruct (selector_fields_are_mapped_one_to_one (W:=Log)) as (HS & HC & HB).
  split; [| split].
  - apply (HS server {| proto.AppliesToRequest.Plugin := my_action_name |} [] my_action selector);
      reflexivity.
  - apply (HC {| plugin := my_action_name; grpcClient := answering warned_response |} []
              wire_selector). reflexivity.
  - apply (HB server my_action_name [] my_action selector); reflexivity.
Defined.

Lemma Stub_AppliesTo_transport_failure_witness :
  RestoreItemActionGRPCClient_AppliesTo
    {| plugin := my_action_name; grpcClient := unavailable |} [] =
  ((velero.ResourceSelector.zero, Some (TransportError "unavailable")), [RPCSent "AppliesTo"]).
Proof.
  apply (proj1 (Stub_AppliesTo_transport_failure
                  {| plugin := my_action_name; grpcClient := unavailable |} [])).
  reflexivity.
Defined.

Lemma handler_of_another_type_is_rejected_witness :
  RestoreItemActionGRPCServer_Execute server (request "plugins.io/volume-snapshotter") [] =
  (Normal (None, Some (NotARestoreItemAction "*main.VolumeSnapshotter")), []).
Proof.
  assert (Hl : handlers (mux server) !! "plugins.io/volume-snapshotter" =
               Some (AnotherType "*main.VolumeSnapshotter")) by reflexivity.
  destruct (handler_of_another_type_is_rejected server _ _ Hl) as (_ & _ & _ & HE).
  apply HE. reflexivity.
Defined.

Lemma Dispatcher_Execute_result_encoding_failure_witness :
  RestoreItemActionGRPCServer_Execute server (request "plugins.io/chan") [] =
  (Normal (None, Some (SerializationError "json: unsupported type")), [ExecuteCalled "C" input]).
Proof.
  apply (Dispatcher_Execute_result_encoding_failure
           server (request "plugins.io/chan") [] chan_action pod pod_old r1
           {| velero.RestoreItemActionExecuteOutput.UpdatedItem :=
                Some (unstructured.mk [("kind", Str "Pod"); ("ch", Chan)]);
              velero.RestoreItemActionExecuteOutput.Warning := None |});
    reflexivity.
Defined.

End OnTheScenario.

(** ** Further properties of the stub and the dispatcher *)

Section MoreProperties.
Context {W : Type}.
Context `{!Marshaler (list (string * value)), !Marshaler api.Restore,
          !Marshaler (option unstructured.Unstructured),
          !Unmarshaler unstructured.Unstructured, !Unmarshaler api.Restore}.

Implicit Types (s : RestoreItemActionGRPCServer W) (c : RestoreItemActionGRPCClient W).
Implicit Types (w : W) (impl : velero.RestoreItemAction W).

(** *** The stub's Execute *)

(** The stub's Execute once the three documents are encoded: one call of the
    channel, then the reading of its answer. *)
Lemma Client_Execute_sent c input w itemJSON itemFromBackupJSON restoreJSON :
  json_Marshal (unstructured.UnstructuredContent
                  (velero.RestoreItemActionExecuteInput.Item input)) = inl itemJSON ->
  json_Marshal (unstructured.UnstructuredContent
                  (velero.RestoreItemActionExecuteInput.ItemFromBackup input)) = inl itemFromBackupJSON ->
  json_Marshal (velero.RestoreItemActionExecuteInput.Restore input) = inl restoreJSON ->
  RestoreItemActionGRPCClient_Execute c input w =
  match proto.Execute (grpcClient c)
          {| proto.RestoreExecuteRequest.Plugin := plugin c;
             proto.RestoreExecuteRequest.Item := itemJSON;
             proto.RestoreExecuteRequest.ItemFromBackup := itemFromBackupJSON;
             proto.RestoreExecuteRequest.Restore := restoreJSON |} w with
  | (inr err, w') => ((None, Some err), w')
  | (inl res, w') =>
      match json_Unmarshal (proto.RestoreExecuteResponse.Item res) with
      | inr err => ((None, Some err), w')
      | inl updatedItem =>
          ((Some {| velero.RestoreItemActionExecuteOutput.UpdatedItem := Some updatedItem;
                    velero.RestoreItemActionExecuteOutput.Warning :=
                      if decide (proto.RestoreExecuteResponse.Warning res = EmptyString) then None
                      else Some (errors_New (proto.RestoreExecuteResponse.Warning res)) |},
            None), w')
      end
  end.
Proof.
  intros Hi Hb Hr. unfold RestoreItemActionGRPCClient_Execute. now rewrite Hi, Hb, Hr.
Qed.

(** X1. When the transport fails the Execute RPC with [err], the stub returns
    no output and [err] itself, in the world the RPC left. *)
Theorem Stub_Execute_transport_failure
    c input w itemJSON itemFromBackupJSON restoreJSON err w' :
  json_Marshal (unstructured.UnstructuredContent
                  (velero.RestoreItemActionExecuteInput.Item input)) = inl itemJSON ->
  json_Marshal (unstructured.UnstructuredContent
                  (velero.RestoreItemActionExecuteInput.ItemFromBackup input)) = inl itemFromBackupJSON ->
  json_Marshal (velero.RestoreItemActionExecuteInput.Restore input) = inl restoreJSON ->
  proto.Execute (grpcClient c)
    {| proto.RestoreExecuteRequest.Plugin := plugin c;
       proto.RestoreExecuteRequest.Item := itemJSON;
       proto.RestoreExecuteRequest.ItemFromBackup := itemFromBackupJSON;
       proto.RestoreExecuteRequest.Restore := restoreJSON |} w = (inr err, w') ->
  RestoreItemActionGRPCClient_Execute c input w = ((None, Some err), w').
Proof.
  intros Hi Hb Hr Hc. rewrite (Client_Execute_sent _ _ _ _ _ _ Hi Hb Hr). now rewrite Hc.
Qed.

(** X2. When the RPC answers with a response whose item does not decode, the
    stub returns no output and the decoder's SerializationError, in the world
    the RPC left; a warning in that response is not returned. *)
Theorem Stub_Execute_undecodable_response
    c input w itemJSON itemFromBackupJSON restoreJSON res msg w' :
  json_Marshal (unstructured.UnstructuredContent
                  (velero.RestoreItemActionExecuteInput.Item input)) = inl itemJSON ->
  json_Marshal (unstructured.UnstructuredContent
                  (velero.RestoreItemActionExecuteInput.ItemFromBackup input)) = inl itemFromBackupJSON ->
  json_Marshal (velero.RestoreItemActionExecuteInput.Restore input) = inl restoreJSON ->
  proto.Execute (grpcClient c)
    {| proto.RestoreExecuteRequest.Plugin := plugin c;
       proto.RestoreExecuteRequest.Item := itemJSON;
       proto.RestoreExecuteRequest.ItemFromBackup := itemFromBackupJSON;
       proto.RestoreExecuteRequest.Restore := restoreJSON |} w = (inl res, w') ->
  unmarshal (T:=unstructured.Unstructured) (proto.RestoreExecuteResponse.Item res) = inr msg ->
  RestoreItemActionGRPCClient_Execute c input w = ((None, Some (SerializationError msg)), w').
Proof.
  intros Hi Hb Hr Hc Hu. rewrite (Client_Execute_sent _ _ _ _ _ _ Hi Hb Hr).
  rewrite Hc. unfold json_Unmarshal. now rewrite Hu.
Qed.

(** X3. When the three documents encode, the stub's Execute uses the channel
    once, for the request that carries the stub's plugin name and the three
    encodings in their fields: whatever the channel answers, the world after
    Execute is the world after that one call. *)
Theorem Stub_Execute_sends_one_request c input w itemJSON itemFromBackupJSON restoreJSON :
  json_Marshal (unstructured.UnstructuredContent
                  (velero.RestoreItemActionExecuteInput.Item input)) = inl itemJSON ->
  json_Marshal (unstructured.UnstructuredContent
                  (velero.RestoreItemActionExecuteInput.ItemFromBackup input)) = inl itemFromBackupJSON ->
  json_Marshal (velero.RestoreItemActionExecuteInput.Restore input) = inl restoreJSON ->
  snd (RestoreItemActionGRPCClient_Execute c input w) =
  snd (proto.Execute (grpcClient c)
         {| proto.RestoreExecuteRequest.Plugin := plugin c;
            proto.RestoreExecuteRequest.Item := itemJSON;
            proto.RestoreExecuteRequest.ItemFromBackup := itemFromBackupJSON;
            proto.RestoreExecuteRequest.Restore := restoreJSON |} w).
Proof.
  intros Hi Hb Hr. rewrite (Client_Execute_sent _ _ _ _ _ _ Hi Hb Hr).
  destruct (proto.Execute _ _ _) as [[res | err] w']; [| reflexivity].
  now destruct (json_Unmarshal _).
Qed.

(** X4. The stub's Execute encodes the item, then the item from the backup,
    then the restore descriptor, and returns the error of the first one that
    fails: a later document is not looked at. *)
Theorem Stub_Execute_reports_first_encoding_failure c input w :
  (forall msg,
      marshal (unstructured.UnstructuredContent
                 (velero.RestoreItemActionExecuteInput.Item input)) = inr msg ->
      RestoreItemActionGRPCClient_Execute c input w = ((None, Some (SerializationError msg)), w)) /\
  (forall itemJSON msg,
      marshal (unstructured.UnstructuredContent
                 (velero.RestoreItemActionExecuteInput.Item input)) = inl itemJSON ->
      marshal (unstructured.UnstructuredContent
                 (velero.RestoreItemActionExecuteInput.ItemFromBackup input)) = inr msg ->
      RestoreItemActionGRPCClient_Execute c input w = ((None, Some (SerializationError msg)), w)) /\
  (forall itemJSON itemFromBackupJSON msg,
      marshal (unstructured.UnstructuredContent
                 (velero.RestoreItemActionExecuteInput.Item input)) = inl itemJSON ->
      marshal (unstructured.UnstructuredContent
                 (velero.RestoreItemActionExecuteInput.ItemFromBackup input)) = inl itemFromBackupJSON ->
      marshal (velero.RestoreItemActionExecuteInput.Restore input) = inr msg ->
      RestoreItemActionGRPCClient_Execute c input w = ((None, Some (SerializationError msg)), w)).
Proof.
  unfold RestoreItemActionGRPCClient_Execute, json_Marshal. split; [| split].
  - intros msg H1. now rewrite H1.
  - intros itemJSON msg H1 H2. now rewrite H1, H2.
  - intros itemJSON itemFromBackupJSON msg H1 H2 H3. now rewrite H1, H2, H3.
Qed.

(** X5. An output returned by the stub's Execute comes from an answered RPC:
    the three documents encoded, the channel answered the request with a
    response whose item decodes to the output's updated item, and the
    output's warning is nil exactly when the response's warning string is
    empty, and otherwise has that string, which is not empty, as its
    message. *)
Theorem Stub_Execute_output_comes_from_response c input w o err w' :
  RestoreItemActionGRPCClient_Execute c input w = ((Some o, err), w') ->
  exists itemJSON itemFromBackupJSON restoreJSON res updatedItem,
    json_Marshal (unstructured.UnstructuredContent
                    (velero.RestoreItemActionExecuteInput.Item input)) = inl itemJSON /\
    json_Marshal (unstructured.UnstructuredContent
                    (velero.RestoreItemActionExecuteInput.ItemFromBackup input)) = inl itemFromBackupJSON /\
    json_Marshal (velero.RestoreItemActionExecuteInput.Restore input) = inl restoreJSON /\
    proto.Execute (grpcClient c)
      {| proto.RestoreExecuteRequest.Plugin := plugin c;
         proto.RestoreExecuteRequest.Item := itemJSON;
         proto.RestoreExecuteRequest.ItemFromBackup := itemFromBackupJSON;
         proto.RestoreExecuteRequest.Restore := restoreJSON |} w = (inl res, w') /\
    json_Unmarshal (proto.RestoreExecuteResponse.Item res) = inl updatedItem /\
    velero.RestoreItemActionExecuteOutput.UpdatedItem o = Some updatedItem /\
    (velero.RestoreItemActionExecuteOutput.Warning o = None <->
     proto.RestoreExecuteResponse.Warning res = EmptyString) /\
    (forall e, velero.RestoreItemActionExecuteOutput.Warning o = Some e ->
               Error e = proto.RestoreExecuteResponse.Warning res /\ Error e <> EmptyString).
Proof.
  unfold RestoreItemActionGRPCClient_Execute.
  destruct (json_Marshal (unstructured.UnstructuredContent
                            (velero.RestoreItemActionExecuteInput.Item input)))
    as [itemJSON | e1] eqn:Hi; [| intros [=]].
  destruct (json_Marshal (unstructured.UnstructuredContent
                            (velero.RestoreItemActionExecuteInput.ItemFromBackup input)))
    as [itemFromBackupJSON | e2] eqn:Hb; [| intros [=]].
  destruct (json_Marshal (velero.RestoreItemActionExecuteInput.Restore input))
    as [restoreJSON | e3] eqn:Hr; [| intros [=]].
  cbv zeta. destruct (proto.Execute _ _ _) as [[res | e4] w1] eqn:Hc; [| intros [=]].
  destruct (json_Unmarshal _) as [updatedItem | e5] eqn:Hu; intros [= <- <- <-].
  exists itemJSON, itemFromBackupJSON, restoreJSON, res, updatedItem.
  repeat (split; [first [assumption | reflexivity] |]). cbn.
  destruct (decide (proto.RestoreExecuteResponse.Warning res = EmptyString)) as [He | Hne].
  - split; [tauto | intros e [=]].
  - split; [split; [intros [=] | tauto] |]. intros e [= <-]. cbn. tauto.
Qed.

(** *** The dispatcher *)

(** X6. When the implementation's AppliesTo returns an error, the dispatcher
    returns that error itself and no response, whatever selector came with
    it. *)
Theorem Dispatcher_AppliesTo_forwards_error s req w impl appliesTo e w' :
  getImpl s (proto.AppliesToRequest.Plugin req) = inl impl ->
  velero.AppliesTo impl w = (Normal (appliesTo, Some e), w') ->
  RestoreItemActionGRPCServer_AppliesTo s req w = (Normal (None, Some e), w').
Proof.
  intros Hg Ha. unfold RestoreItemActionGRPCServer_AppliesTo.
  apply withRecover_Normal. rewrite Hg. unfold mbind, M_bind. now rewrite Ha.
Qed.

(** X7. When the implementation's Execute returns an error, the dispatcher
    returns that error itself and no response; the output that came with the
    error, nil or not, is not read. *)
Theorem Dispatcher_Execute_forwards_error
    s req w impl item itemFromBackup restoreObj executeOutput e w' :
  getImpl s (proto.RestoreExecuteRequest.Plugin req) = inl impl ->
  json_Unmarshal (proto.RestoreExecuteRequest.Item req) = inl item ->
  json_Unmarshal (proto.RestoreExecuteRequest.ItemFromBackup req) = inl itemFromBackup ->
  json_Unmarshal (proto.RestoreExecuteRequest.Restore req) = inl restoreObj ->
  velero.Execute impl
    {| velero.RestoreItemActionExecuteInput.Item := item;
       velero.RestoreItemActionExecuteInput.ItemFromBackup := itemFromBackup;
       velero.RestoreItemActionExecuteInput.Restore := restoreObj |} w =
  (Normal (executeOutput, Some e), w') ->
  RestoreItemActionGRPCServer_Execute s req w = (Normal (None, Some e), w').
Proof.
  intros Hg Hi Hb Hr He.
  rewrite (Execute_invoked _ _ _ _ _ _ _ Hg Hi Hb Hr).
  apply withRecover_Normal. unfold mbind, M_bind. now rewrite He.
Qed.

(** X8. When the implementation's Execute returns an output and no error,
    and the updated item encodes, the dispatcher answers with that encoding
    and, as warning string, the message of the output's warning, or the
    empty string when the warning is nil. *)
Theorem Dispatcher_Execute_completed_response
    s req w impl item itemFromBackup restoreObj executeOutput updatedItem w' :
  getImpl s (proto.RestoreExecuteRequest.Plugin req) = inl impl ->
  json_Unmarshal (proto.RestoreExecuteRequest.Item req) = inl item ->
  json_Unmarshal (proto.RestoreExecuteRequest.ItemFromBackup req) = inl itemFromBackup ->
  json_Unmarshal (proto.RestoreExecuteRequest.Restore req) = inl restoreObj ->
  velero.Execute impl
    {| velero.RestoreItemActionExecuteInput.Item := item;
       velero.RestoreItemActionExecuteInput.ItemFromBackup := itemFromBackup;
       velero.RestoreItemActionExecuteInput.Restore := restoreObj |} w =
  (Normal (Some executeOutput, None), w') ->
  json_Marshal (velero.RestoreItemActionExecuteOutput.UpdatedItem executeOutput) = inl updatedItem ->
  exists res,
    RestoreItemActionGRPCServer_Execute s req w = (Normal (Some res, None), w') /\
    proto.RestoreExecuteResponse.Item res = updatedItem /\
    (velero.RestoreItemActionExecuteOutput.Warning executeOutput = None ->
     proto.RestoreExecuteResponse.Warning res = EmptyString) /\
    (forall warning,
        velero.RestoreItemActionExecuteOutput.Warning executeOutput = Some warning ->
        proto.RestoreExecuteResponse.Warning res = Error warning).
Proof.
  intros Hg Hi Hb Hr He Hm.
  rewrite (Execute_invoked _ _ _ _ _ _ _ Hg Hi Hb Hr).
  eexists. split.
  - apply withRecover_Normal. unfold mbind, M_bind. rewrite He, Hm. reflexivity.
  - cbn. split; [reflexivity |]. split.
    + intros Hw. now rewrite Hw.
    + intros warning Hw. now rewrite Hw.
Qed.

(** X9. With the implementation resolved, the dispatcher's Execute decodes
    the item, then the item from the backup, then the restore descriptor, and
    fails with the error of the first one that does not decode, the world
    untouched. *)
Theorem Dispatcher_Execute_reports_first_decoding_failure s req w impl :
  getImpl s (proto.RestoreExecuteRequest.Plugin req) = inl impl ->
  (forall msg,
      unmarshal (T:=unstructured.Unstructured) (proto.RestoreExecuteRequest.Item req) = inr msg ->
      RestoreItemActionGRPCServer_Execute s req w =
      (Normal (None, Some (SerializationError msg)), w)) /\
  (forall (item : unstructured.Unstructured) msg,
      unmarshal (proto.RestoreExecuteRequest.Item req) = inl item ->
      unmarshal (T:=unstructured.Unstructured) (proto.RestoreExecuteRequest.ItemFromBackup req) = inr msg ->
      RestoreItemActionGRPCServer_Execute s req w =
      (Normal (None, Some (SerializationError msg)), w)) /\
  (forall (item itemFromBackup : unstructured.Unstructured) msg,
      unmarshal (proto.RestoreExecuteRequest.Item req) = inl item ->
      unmarshal (proto.RestoreExecuteRequest.ItemFromBackup req) = inl itemFromBackup ->
      unmarshal (T:=api.Restore) (proto.RestoreExecuteRequest.Restore req) = inr msg ->
      RestoreItemActionGRPCServer_Execute s req w =
      (Normal (None, Some (SerializationError msg)), w)).
Proof.
  intros Hg. unfold RestoreItemActionGRPCServer_Execute, json_Unmarshal. rewrite Hg.
  split; [| split].
  - intros msg H1. now rewrite H1.
  - intros item msg H1 H2. now rewrite H1, H2.
  - intros item itemFromBackup msg H1 H2 H3. now rewrite H1, H2, H3.
Qed.

(** X10. A handler calls the resolved implementation once and does nothing
    else to the world: after AppliesTo, and after an Execute whose payloads
    decode, the world is the one that a single call of the implementation's
    operation leaves (for Execute, on the three decoded documents), whether
    that call returns a result, returns an error or panics. *)
Theorem Dispatcher_invokes_the_implementation_once s :
  (forall req w impl,
      getImpl s (proto.AppliesToRequest.Plugin req) = inl impl ->
      snd (RestoreItemActionGRPCServer_AppliesTo s req w) = snd (velero.AppliesTo impl w)) /\
  (forall req w impl item itemFromBackup restoreObj,
      getImpl s (proto.RestoreExecuteRequest.Plugin req) = inl impl ->
      json_Unmarshal (proto.RestoreExecuteRequest.Item req) = inl item ->
      json_Unmarshal (proto.RestoreExecuteRequest.ItemFromBackup req) = inl itemFromBackup ->
      json_Unmarshal (proto.RestoreExecuteRequest.Restore req) = inl restoreObj ->
      snd (RestoreItemActionGRPCServer_Execute s req w) =
      snd (velero.Execute impl
             {| velero.RestoreItemActionExecuteInput.Item := item;
                velero.RestoreItemActionExecuteInput.ItemFromBackup := itemFromBackup;
                velero.RestoreItemActionExecuteInput.Restore := restoreObj |} w)).
Proof.
  split.
  - intros req w impl Hg. unfold RestoreItemActionGRPCServer_AppliesTo. rewrite Hg.
    unfold withRecover, mbind, M_bind.
    destruct (velero.AppliesTo impl w) as [[[appliesTo [e |]] | p] w1]; reflexivity.
  - intros req w impl item itemFromBackup restoreObj Hg Hi Hb Hr.
    rewrite (Execute_invoked _ _ _ _ _ _ _ Hg Hi Hb Hr).
    unfold withRecover, mbind, M_bind.
    destruct (velero.Execute impl _ w) as [[[[executeOutput |] [e |]] | p] w1];
      try reflexivity.
    now destruct (json_Marshal _).
Qed.

(** X11. A response of the dispatcher's AppliesTo comes from the registered
    implementation: the plugin name resolved, the implementation returned a
    selector and no error, and the response holds the five fields of that
    selector; no error comes with a response. *)
Theorem Dispatcher_AppliesTo_response_comes_from_implementation s req w res err w' :
  RestoreItemActionGRPCServer_AppliesTo s req w = (Normal (Some res, err), w') ->
  err = None /\
  exists impl appliesTo,
    handlers (mux s) !! proto.AppliesToRequest.Plugin req = Some (ARestoreItemAction impl) /\
    velero.AppliesTo impl w = (Normal (appliesTo, None), w') /\
    proto.AppliesToResponse.IncludedNamespaces res = velero.ResourceSelector.IncludedNamespaces appliesTo /\
    proto.AppliesToResponse.ExcludedNamespaces res = velero.ResourceSelector.ExcludedNamespaces appliesTo /\
    proto.AppliesToResponse.IncludedResources res = velero.ResourceSelector.IncludedResources appliesTo /\
    proto.AppliesToResponse.ExcludedResources res = velero.ResourceSelector.ExcludedResources appliesTo /\
    proto.AppliesToResponse.Selector res = velero.ResourceSelector.LabelSelector appliesTo.
Proof.
  unfold RestoreItemActionGRPCServer_AppliesTo, getImpl, getHandler, withRecover, mbind, M_bind.
  destruct (handlers (mux s) !! proto.AppliesToRequest.Plugin req) as [[impl | T] |] eqn:Hl;
    [| intros [=] | intros [=]].
  destruct (velero.AppliesTo impl w) as [[[appliesTo [e |]] | p] w1] eqn:Ha; intros [= <- <- <-].
  split; [reflexivity |]. exists impl, appliesTo. cbn. tauto.
Qed.

(** X12. A response of the dispatcher's Execute comes from the registered
    implementation: the plugin name resolved, the three payloads decoded, the
    implementation, run on them, returned an output and no error, the
    response's item is the encoding of the output's updated item and its
    warning string is the message of the output's warning, empty for none;
    no error comes with a response. *)
Theorem Dispatcher_Execute_response_comes_from_implementation s req w res err w' :
  RestoreItemActionGRPCServer_Execute s req w = (Normal (Some res, err), w') ->
  err = None /\
  exists impl item itemFromBackup restoreObj executeOutput,
    handlers (mux s) !! proto.RestoreExecuteRequest.Plugin req = Some (ARestoreItemAction impl) /\
    json_Unmarshal (proto.RestoreExecuteRequest.Item req) = inl item /\
    json_Unmarshal (proto.RestoreExecuteRequest.ItemFromBackup req) = inl itemFromBackup /\
    json_Unmarshal (proto.RestoreExecuteRequest.Restore req) = inl restoreObj /\
    velero.Execute impl
      {| velero.RestoreItemActionExecuteInput.Item := item;
         velero.RestoreItemActionExecuteInput.ItemFromBackup := itemFromBackup;
         velero.RestoreItemActionExecuteInput.Restore := restoreObj |} w =
    (Normal (Some executeOutput, None), w') /\
    json_Marshal (velero.RestoreItemActionExecuteOutput.UpdatedItem executeOutput) =
    inl (proto.RestoreExecuteResponse.Item res) /\
    proto.RestoreExecuteResponse.Warning res =
    match velero.RestoreItemActionExecuteOutput.Warning executeOutput with
    | Some warning => Error warning
    | None => EmptyString
    end.
Proof.
  unfold RestoreItemActionGRPCServer_Execute, getImpl, getHandler, withRecover, mbind, M_bind.
  destruct (handlers (mux s) !! proto.RestoreExecuteRequest.Plugin req) as [[impl | T] |] eqn:Hl;
    [| intros [=] | intros [=]].
  destruct (json_Unmarshal (proto.RestoreExecuteRequest.Item req)) as [item | e1] eqn:Hi;
    [| intros [=]].
  destruct (json_Unmarshal (proto.RestoreExecuteRequest.ItemFromBackup req))
    as [itemFromBackup | e2] eqn:Hb; [| intros [=]].
  destruct (json_Unmarshal (proto.RestoreExecuteRequest.Restore req)) as [restoreObj | e3] eqn:Hr;
    [| intros [=]].
  destruct (velero.Execute impl _ w) as [[[[executeOutput |] [e |]] | p] w1] eqn:He;
    try (intros [=]; fail).
  destruct (json_Marshal _) as [updatedItem | e4] eqn:Hm; intros [= <- <- <-].
  split; [reflexivity |].
  exists impl, item, itemFromBackup, restoreObj, executeOutput. cbn. tauto.
Qed.

(** X13. Both handlers return exactly one of a response and an error, on
    every request and in every world. *)
Theorem Dispatcher_returns_a_response_or_an_error s :
  (forall req w, exists w',
      (exists res, RestoreItemActionGRPCServer_AppliesTo s req w = (Normal (Some res, None), w')) \/
      (exists e, RestoreItemActionGRPCServer_AppliesTo s req w = (Normal (None, Some e), w'))) /\
  (forall req w, exists w',
      (exists res, RestoreItemActionGRPCServer_Execute s req w = (Normal (Some res, None), w')) \/
      (exists e, RestoreItemActionGRPCServer_Execute s req w = (Normal (None, Some e), w'))).
Proof.
  split; intros req w.
  - unfold RestoreItemActionGRPCServer_AppliesTo, withRecover, mbind, M_bind.
    destruct (getImpl s _) as [impl | e0]; [| eauto].
    destruct (velero.AppliesTo impl w) as [[[appliesTo [e |]] | p] w1]; cbn; eauto.
  - unfold RestoreItemActionGRPCServer_Execute, withRecover, mbind, M_bind.
    destruct (getImpl s _) as [impl | e0]; [| cbn; eauto].
    destruct (json_Unmarshal (proto.RestoreExecuteRequest.Item req)) as [item | e1];
      [| cbn; eauto].
    destruct (json_Unmarshal (proto.RestoreExecuteRequest.ItemFromBackup req))
      as [itemFromBackup | e2]; [| cbn; eauto].
    destruct (json_Unmarshal (proto.RestoreExecuteRequest.Restore req)) as [restoreObj | e3];
      [| cbn; eauto].
    destruct (velero.Execute impl _ w) as [[[[executeOutput |] [e |]] | p] w1]; cbn; eauto.
    destruct (json_Marshal _) as [updatedItem | e4]; cbn; eauto.
Qed.

(** *** The stub connected to the dispatcher *)

(** What the channel onto [s] answers to the request for [input] when the
    implementation returns an output whose updated item encodes. *)
Lemma channel_Execute_completed
    s name impl input w executeOutput itemJSON itemFromBackupJSON restoreJSON updatedItem w' :
  handlers (mux s) !! name = Some (ARestoreItemAction impl) ->
  unmarshal itemJSON = inl (velero.RestoreItemActionExecuteInput.Item input) ->
  unmarshal itemFromBackupJSON = inl (velero.RestoreItemActionExecuteInput.ItemFromBackup input) ->
  unmarshal restoreJSON = inl (velero.RestoreItemActionExecuteInput.Restore input) ->
  velero.Execute impl input w = (Normal (Some executeOutput, None), w') ->
  marshal (velero.RestoreItemActionExecuteOutput.UpdatedItem executeOutput) = inl updatedItem ->
  proto.Execute (channel s)
    {| proto.RestoreExecuteRequest.Plugin := name;
       proto.RestoreExecuteRequest.Item := itemJSON;
       proto.RestoreExecuteRequest.ItemFromBackup := itemFromBackupJSON;
       proto.RestoreExecuteRequest.Restore := restoreJSON |} w =
  (inl {| proto.RestoreExecuteResponse.Item := updatedItem;
          proto.RestoreExecuteResponse.Warning :=
            match velero.RestoreItemActionExecuteOutput.Warning executeOutput with
            | Some warning => Error warning
            | None => EmptyString
            end |}, w').
Proof.
  intros Hl Hi Hb Hr He Hm. destruct input as [item itemFromBackup restoreObj].
  cbn [channel proto.Execute].
  erewrite Execute_completed; [reflexivity | | | | | exact He | exact Hm].
  - now apply getImpl_registered.
  - now apply json_Unmarshal_inl.
  - now apply json_Unmarshal_inl.
  - now apply json_Unmarshal_inl.
Qed.

(** What the stub connected to [s] returns in that case. *)
Lemma stub_over_dispatcher_Execute s name impl input w executeOutput updatedItem w' :
  handlers (mux s) !! name = Some (ARestoreItemAction impl) ->
  round_trips (unstructured.UnstructuredContent (velero.RestoreItemActionExecuteInput.Item input))
              (velero.RestoreItemActionExecuteInput.Item input) ->
  round_trips (unstructured.UnstructuredContent (velero.RestoreItemActionExecuteInput.ItemFromBackup input))
              (velero.RestoreItemActionExecuteInput.ItemFromBackup input) ->
  round_trips (velero.RestoreItemActionExecuteInput.Restore input)
              (velero.RestoreItemActionExecuteInput.Restore input) ->
  velero.Execute impl input w = (Normal (Some executeOutput, None), w') ->
  round_trips (velero.RestoreItemActionExecuteOutput.UpdatedItem executeOutput) updatedItem ->
  RestoreItemActionGRPCClient_Execute {| plugin := name; grpcClient := channel s |} input w =
  ((Some {| velero.RestoreItemActionExecuteOutput.UpdatedItem := Some updatedItem;
            velero.RestoreItemActionExecuteOutput.Warning :=
              match velero.RestoreItemActionExecuteOutput.Warning executeOutput with
              | Some warning =>
                  if decide (Error warning = EmptyString) then None
                  else Some (errors_New (Error warning))
              | None => None
              end |}, None), w').
Proof.
  intros Hl [itemJSON [Hi Hi']] [itemFromBackupJSON [Hb Hb']] [restoreJSON [Hr Hr']] He
         [data [Hu Hu']].
  rewrite (Client_Execute_sent _ _ _ _ _ _ (json_Marshal_inl _ _ Hi) (json_Marshal_inl _ _ Hb)
             (json_Marshal_inl _ _ Hr)).
  cbn [grpcClient plugin].
  rewrite (channel_Execute_completed _ _ _ _ _ _ _ _ _ _ _ Hl Hi' Hb' Hr' He Hu).
  cbn [proto.RestoreExecuteResponse.Item proto.RestoreExecuteResponse.Warning].
  rewrite (json_Unmarshal_inl _ _ Hu').
  destruct (velero.RestoreItemActionExecuteOutput.Warning executeOutput) as [warning |];
    reflexivity.
Qed.

(** X14. Execute across the bridge: when the implementation registered under
    the stub's plugin name returns an output without an error, and the
    serializer round-trips the three input documents and the updated item,
    the stub returns that updated item and no error, in the world the
    implementation left.  A nil warning arrives as nil; a warning with a
    non-empty message arrives as a new error with the same message. *)
Theorem Execute_across_the_bridge s name impl input w executeOutput updatedItem w' :
  handlers (mux s) !! name = Some (ARestoreItemAction impl) ->
  round_trips (unstructured.UnstructuredContent (velero.RestoreItemActionExecuteInput.Item input))
              (velero.RestoreItemActionExecuteInput.Item input) ->
  round_trips (unstructured.UnstructuredContent (velero.RestoreItemActionExecuteInput.ItemFromBackup input))
              (velero.RestoreItemActionExecuteInput.ItemFromBackup input) ->
  round_trips (velero.RestoreItemActionExecuteInput.Restore input)
              (velero.RestoreItemActionExecuteInput.Restore input) ->
  velero.Execute impl input w = (Normal (Some executeOutput, None), w') ->
  round_trips (velero.RestoreItemActionExecuteOutput.UpdatedItem executeOutput) updatedItem ->
  exists warning,
    RestoreItemActionGRPCClient_Execute {| plugin := name; grpcClient := channel s |} input w =
    ((Some {| velero.RestoreItemActionExecuteOutput.UpdatedItem := Some updatedItem;
              velero.RestoreItemActionExecuteOutput.Warning := warning |}, None), w') /\
    (velero.RestoreItemActionExecuteOutput.Warning executeOutput = None -> warning = None) /\
    (forall e,
        velero.RestoreItemActionExecuteOutput.Warning executeOutput = Some e ->
        Error e <> EmptyString ->
        warning = Some (errors_New (Error e)) /\ Error (errors_New (Error e)) = Error e).
Proof.
  intros Hl Hi Hb Hr He Hu. eexists. split.
  - exact (stub_over_dispatcher_Execute _ _ _ _ _ _ _ _ Hl Hi Hb Hr He Hu).
  - split.
    + intros Hw. now rewrite Hw.
    + intros e Hw Hne. rewrite Hw. split; [| reflexivity].
      destruct (decide (Error e = EmptyString)) as [Heq | _]; [now destruct Hne | reflexivity].
Qed.

(** X15. A warning whose message is the empty string does not cross the
    bridge: the dispatcher sends the empty warning string, which the stub
    reads as no warning, so the stub returns the updated item with a nil
    warning. *)
Theorem empty_warning_is_lost_across_the_bridge
    s name impl input w executeOutput updatedItem e w' :
  handlers (mux s) !! name = Some (ARestoreItemAction impl) ->
  round_trips (unstructured.UnstructuredContent (velero.RestoreItemActionExecuteInput.Item input))
              (velero.RestoreItemActionExecuteInput.Item input) ->
  round_trips (unstructured.UnstructuredContent (velero.RestoreItemActionExecuteInput.ItemFromBackup input))
              (velero.RestoreItemActionExecuteInput.ItemFromBackup input) ->
  round_trips (velero.RestoreItemActionExecuteInput.Restore input)
              (velero.RestoreItemActionExecuteInput.Restore input) ->
  velero.Execute impl input w = (Normal (Some executeOutput, None), w') ->
  round_trips (velero.RestoreItemActionExecuteOutput.UpdatedItem executeOutput) updatedItem ->
  velero.RestoreItemActionExecuteOutput.Warning executeOutput = Some e ->
  Error e = EmptyString ->
  RestoreItemActionGRPCClient_Execute {| plugin := name; grpcClient := channel s |} input w =
  ((Some {| velero.RestoreItemActionExecuteOutput.UpdatedItem := Some updatedItem;
            velero.RestoreItemActionExecuteOutput.Warning := None |}, None), w').
Proof.
  intros Hl Hi Hb Hr He Hu Hw Hempty.
  rewrite (stub_over_dispatcher_Execute _ _ _ _ _ _ _ _ Hl Hi Hb Hr He Hu), Hw.
  destruct (decide (Error e = EmptyString)) as [_ | Hne]; [reflexivity | now destruct Hne].
Qed.

End MoreProperties.

(** ** The further properties on the scenario *)

Section MoreOnTheScenario.
Import JSON Scenario MoreScenario.

Lemma Stub_Execute_transport_failure_witness :
  RestoreItemActionGRPCClient_Execute
    {| plugin := my_action_name; grpcClient := unavailable |} input [] =
  ((None, Some (TransportError "unavailable")), [RPCSent "Execute"]).
Proof.
  apply (Stub_Execute_transport_failure
           {| plugin := my_action_name; grpcClient := unavailable |} input []
           (bytes_of (Map (unstructured.Object pod)))
           (bytes_of (Map (unstructured.Object pod_old)))
           (bytes_of (Map (api.Descriptor r1)))); reflexivity.
Defined.

Lemma Stub_Execute_undecodable_response_witness :
  RestoreItemActionGRPCClient_Execute
    {| plugin := my_action_name; grpcClient := answering garbled_response |} input [] =
  ((None, Some (SerializationError "invalid character")), [RPCSent "Execute"]).
Proof.
  apply (Stub_Execute_undecodable_response
           {| plugin := my_action_name; grpcClient := answering garbled_response |} input []
           (bytes_of (Map (unstructured.Object pod)))
           (bytes_of (Map (unstructured.Object pod_old)))
           (bytes_of (Map (api.Descriptor r1))) garbled_response); reflexivity.
Defined.

Lemma Stub_Execute_sends_one_request_witness :
  snd (RestoreItemActionGRPCClient_Execute
         {| plugin := "plugins.io/failing"; grpcClient := channel more_server |} input []) =
  snd (RestoreItemActionGRPCServer_Execute more_server (request "plugins.io/failing") []).
Proof.
  rewrite (Stub_Execute_sends_one_request
             {| plugin := "plugins.io/failing"; grpcClient := channel more_server |} input []
             (bytes_of (Map (unstructured.Object pod)))
             (bytes_of (Map (unstructured.Object pod_old)))
             (bytes_of (Map (api.Descriptor r1)))); reflexivity.
Defined.

Lemma Stub_Execute_reports_first_encoding_failure_witness :
  RestoreItemActionGRPCClient_Execute
    {| plugin := my_action_name; grpcClient := answering warned_response |}
    unencodable_restore_input [] =
  ((None, Some (SerializationError "json: unsupported type")), []).
Proof.
  apply (proj2 (proj2 (Stub_Execute_reports_first_encoding_failure
                         {| plugin := my_action_name; grpcClient := answering warned_response |}
                         unencodable_restore_input []))
           (bytes_of (Map (unstructured.Object pod)))
           (bytes_of (Map (unstructured.Object pod_old)))); reflexivity.
Defined.

Lemma Stub_Execute_output_comes_from_response_witness :
  exists itemJSON itemFromBackupJSON restoreJSON res updatedItem,
    json_Marshal (unstructured.UnstructuredContent pod) = inl itemJSON /\
    json_Marshal (unstructured.UnstructuredContent pod_old) = inl itemFromBackupJSON /\
    json_Marshal r1 = inl restoreJSON /\
    proto.Execute (answering warned_response)
      {| proto.RestoreExecuteRequest.Plugin := my_action_name;
         proto.RestoreExecuteRequest.Item := itemJSON;
         proto.RestoreExecuteRequest.ItemFromBackup := itemFromBackupJSON;
         proto.RestoreExecuteRequest.Restore := restoreJSON |} [] = (inl res, [RPCSent "Execute"]) /\
    json_Unmarshal (proto.RestoreExecuteResponse.Item res) = inl updatedItem /\
    Some pod_restored = Some updatedItem /\
    (Some (errors_New "W") = None <-> proto.RestoreExecuteResponse.Warning res = EmptyString) /\
    (forall e, Some (errors_New "W") = Some e ->
               Error e = proto.RestoreExecuteResponse.Warning res /\ Error e <> EmptyString).
Proof.
  apply (Stub_Execute_output_comes_from_response
           {| plugin := my_action_name; grpcClient := answering warned_response |} input []
           {| velero.RestoreItemActionExecuteOutput.UpdatedItem := Some pod_restored;
              velero.RestoreItemActionExecuteOutput.Warning := Some (errors_New "W") |}
           None [RPCSent "Execute"]).
  reflexivity.
Defined.

Lemma Dispatcher_AppliesTo_forwards_error_witness :
  RestoreItemActionGRPCServer_AppliesTo more_server
    {| proto.AppliesToRequest.Plugin := "plugins.io/failing" |} [] =
  (Normal (None, Some denied), [AppliesToCalled "E"]).
Proof.
  apply (Dispatcher_AppliesTo_forwards_error more_server
           {| proto.AppliesToRequest.Plugin := "plugins.io/failing" |} []
           failing_action selector); reflexivity.
Defined.

Lemma Dispatcher_Execute_forwards_error_witness :
  RestoreItemActionGRPCServer_Execute more_server (request "plugins.io/failing") [] =
  (Normal (None, Some denied), [ExecuteCalled "E" input]).
Proof.
  apply (Dispatcher_Execute_forwards_error more_server (request "plugins.io/failing") []
           failing_action pod pod_old r1 (Some output)); reflexivity.
Defined.

Lemma Dispatcher_Execute_completed_response_witness :
  exists res,
    RestoreItemActionGRPCServer_Execute more_server (request "plugins.io/warning") [] =
    (Normal (Some res, None), [ExecuteCalled "W" input]) /\
    proto.RestoreExecuteResponse.Item res = bytes_of (Map (unstructured.Object pod_restored)) /\
    (Some pvc_warning = None -> proto.RestoreExecuteResponse.Warning res = EmptyString) /\
    (forall warning, Some pvc_warning = Some warning ->
                     proto.RestoreExecuteResponse.Warning res = Error warning).
Proof.
  apply (Dispatcher_Execute_completed_response more_server (request "plugins.io/warning") []
           (warning_action pvc_warning) pod pod_old r1 (warned_output pvc_warning));
    reflexivity.
Defined.

Lemma Dispatcher_Execute_reports_first_decoding_failure_witness :
  RestoreItemActionGRPCServer_Execute more_server (array_restore_request "plugins.io/warning") [] =
  (Normal (None, Some (SerializationError
                         "json: cannot unmarshal into Go value of type v1.Restore")), []).
Proof.
  assert (Hg : getImpl more_server
                 (proto.RestoreExecuteRequest.Plugin (array_restore_request "plugins.io/warning")) =
               inl (warning_action pvc_warning)) by reflexivity.
  apply (proj2 (proj2 (Dispatcher_Execute_reports_first_decoding_failure
                         more_server (array_restore_request "plugins.io/warning") []
                         (warning_action pvc_warning) Hg))
           pod pod_old); reflexivity.
Defined.

Lemma Dispatcher_invokes_the_implementation_once_witness :
  snd (RestoreItemActionGRPCServer_AppliesTo more_server
         {| proto.AppliesToRequest.Plugin := "plugins.io/failing" |} []) =
  [AppliesToCalled "E"] /\
  snd (RestoreItemActionGRPCServer_Execute more_server (request "plugins.io/failing") []) =
  [ExecuteCalled "E" input].
Proof.
  destruct (Dispatcher_invokes_the_implementation_once more_server) as [HA HE]. split.
  - rewrite (HA {| proto.AppliesToRequest.Plugin := "plugins.io/failing" |} []
               failing_action); reflexivity.
  - rewrite (HE (request "plugins.io/failing") [] failing_action pod pod_old r1);
      reflexivity.
Defined.

Lemma Dispatcher_AppliesTo_response_comes_from_implementation_witness :
  @None error = None /\
  exists impl appliesTo,
    handlers (mux server) !! my_action_name = Some (ARestoreItemAction impl) /\
    velero.AppliesTo impl [] = (Normal (appliesTo, None), [AppliesToCalled "M"]) /\
    ["ns1"] = velero.ResourceSelector.IncludedNamespaces appliesTo /\
    [] = velero.ResourceSelector.ExcludedNamespaces appliesTo /\
    [] = velero.ResourceSelector.IncludedResources appliesTo /\
    ["pods"] = velero.ResourceSelector.ExcludedResources appliesTo /\
    "app=foo" = velero.ResourceSelector.LabelSelector appliesTo.
Proof.
  apply (Dispatcher_AppliesTo_response_comes_from_implementation server
           {| proto.AppliesToRequest.Plugin := my_action_name |} [] wire_selector None
           [AppliesToCalled "M"]).
  reflexivity.
Defined.

Lemma Dispatcher_Execute_response_comes_from_implementation_witness :
  @None error = None /\
  exists impl item itemFromBackup restoreObj executeOutput,
    handlers (mux more_server) !! "plugins.io/warning" = Some (ARestoreItemAction impl) /\
    json_Unmarshal (bytes_of (Map (unstructured.Object pod))) = inl item /\
    json_Unmarshal (bytes_of (Map (unstructured.Object pod_old))) = inl itemFromBackup /\
    json_Unmarshal (bytes_of (Map (api.Descriptor r1))) = inl restoreObj /\
    velero.Execute impl
      {| velero.RestoreItemActionExecuteInput.Item := item;
         velero.RestoreItemActionExecuteInput.ItemFromBackup := itemFromBackup;
         velero.RestoreItemActionExecuteInput.Restore := restoreObj |} [] =
    (Normal (Some executeOutput, None), [ExecuteCalled "W" input]) /\
    json_Marshal (velero.RestoreItemActionExecuteOutput.UpdatedItem executeOutput) =
    inl (bytes_of (Map (unstructured.Object pod_restored))) /\
    "PVC not bound" =
    match velero.RestoreItemActionExecuteOutput.Warning executeOutput with
    | Some warning => Error warning
    | None => EmptyString
    end.
Proof.
  apply (Dispatcher_Execute_response_comes_from_implementation more_server
           (request "plugins.io/warning") []
           {| proto.RestoreExecuteResponse.Item := bytes_of (Map (unstructured.Object pod_restored));
              proto.RestoreExecuteResponse.Warning := "PVC not bound" |}
           None [ExecuteCalled "W" input]).
  reflexivity.
Defined.

Lemma Execute_across_the_bridge_witness :
  exists warning,
    RestoreItemActionGRPCClient_Execute
      {| plugin := "plugins.io/warning"; grpcClient := channel more_server |} input [] =
    ((Some {| velero.RestoreItemActionExecuteOutput.UpdatedItem := Some pod_restored;
              velero.RestoreItemActionExecuteOutput.Warning := warning |}, None),
     [ExecuteCalled "W" input]) /\
    (Some pvc_warning = None -> warning = None) /\
    (forall e, Some pvc_warning = Some e -> Error e <> EmptyString ->
               warning = Some (errors_New (Error e)) /\ Error (errors_New (Error e)) = Error e).
Proof.
  apply (Execute_across_the_bridge more_server "plugins.io/warning" (warning_action pvc_warning)
           input [] (warned_output pvc_warning) pod_restored [ExecuteCalled "W" input]);
    [reflexivity | eexists; split; reflexivity .. | reflexivity | eexists; split; reflexivity].
Defined.

Lemma empty_warning_is_lost_across_the_bridge_witness :
  RestoreItemActionGRPCClient_Execute
    {| plugin := "plugins.io/silent-warning"; grpcClient := channel more_server |} input [] =
  ((Some {| velero.RestoreItemActionExecuteOutput.UpdatedItem := Some pod_restored;
            velero.RestoreItemActionExecuteOutput.Warning := None |}, None),
   [ExecuteCalled "W" input]).
Proof.
  apply (empty_warning_is_lost_across_the_bridge more_server "plugins.io/silent-warning"
           (warning_action (errors_New EmptyString)) input []
           (warned_output (errors_New EmptyString)) pod_restored (errors_New EmptyString)
           [ExecuteCalled "W" input]);
    [reflexivity | eexists; split; reflexivity .. | reflexivity | eexists; split; reflexivity
     | reflexivity | reflexivity].
Defined.

End MoreOnTheScenario.
